(** * OAuth application settings and the styled input field

    A shallow embedding of three React components of the frontend:

    - [StyledInputField] (the field decorator): label, optional / required
      qualifiers, error and hint blocks, and the attributes handed to a
      render-prop child;
    - [OAuthApplicationSettings]: the reveal toggle of the client secret
      ([ObfuscatedClientSecret]), the Formik form with its [onSubmit]
      handler and the unsaved-changes guard;
    - [DeleteOAuthApplicationModal]: the [continueHandler] of the
      confirmation dialog and the [update] function run on the Apollo cache.

    JavaScript values are an inductive type with the language's truthiness
    and strict equality; plain objects are finite maps from property names
    to values; JSX is a tree of elements whose attribute lists are finite
    maps, with spread attributes as map union. Event handlers are written in
    a state-and-exception monad over the part of the world they touch. *)

From Stdlib Require Import ZArith.
From stdpp Require Import gmap strings list fin_maps pretty.

Open Scope string_scope.
Set Warnings "-clear-no-such-hyp".

(** ** JavaScript values *)

Module JS.

Inductive JSValue : Type :=
| VUndefined
| VNull
| VBool (b : bool)
| VNum (n : Z)
| VNaN
| VStr (s : string)
| VObj (ref : string).   (* an object known by reference only: a React
                            element, a style object, ... *)

#[global] Instance JSValue_eq_dec : EqDecision JSValue.
Proof. solve_decision. Defined.

(** ToBoolean. *)
Definition truthy (v : JSValue) : bool :=
  match v with
  | VUndefined | VNull | VNaN => false
  | VBool b => b
  | VNum n => negb (n =? 0)%Z
  | VStr s => negb (bool_decide (s = EmptyString))
  | VObj _ => true
  end.

(** [a || b], [a && b] and [!a]. *)
Definition js_or (a b : JSValue) : JSValue := if truthy a then a else b.
Definition js_and (a b : JSValue) : JSValue := if truthy a then b else a.
Definition js_not (a : JSValue) : JSValue := VBool (negb (truthy a)).

(** [a === b]: structural on primitives (NaN is equal to nothing), by
    reference on objects. *)
Definition strict_eq (a b : JSValue) : bool :=
  match a, b with
  | VNaN, _ | _, VNaN => false
  | _, _ => bool_decide (a = b)
  end.

Definition typeof (v : JSValue) : string :=
  match v with
  | VUndefined => "undefined"
  | VNull => "object"
  | VBool _ => "boolean"
  | VNum _ | VNaN => "number"
  | VStr _ => "string"
  | VObj _ => "object"
  end.

(** [Boolean(v)]. *)
Definition Boolean (v : JSValue) : JSValue := VBool (truthy v).

(** ToString, as used by a template literal. *)
Definition to_string (v : JSValue) : string :=
  match v with
  | VUndefined => "undefined"
  | VNull => "null"
  | VBool true => "true"
  | VBool false => "false"
  | VNum n => pretty n
  | VNaN => "NaN"
  | VStr s => s
  | VObj _ => "[object Object]"
  end.

(** A plain object: own enumerable string-keyed properties. *)
Abbreviation JSObject := (gmap string JSValue).

(** Property read [o.k]: [undefined] when the property is absent. *)
Definition get (o : JSObject) (k : string) : JSValue :=
  default VUndefined (o !! k).

(** Optional chaining [o?.k] on an object that may be [undefined]. *)
Definition get_opt (o : option JSObject) (k : string) : JSValue :=
  match o with
  | Some m => get m k
  | None => VUndefined
  end.

(** Object spread [{...a, ...b}]: properties of [b] win. *)
Definition spread (a b : JSObject) : JSObject := b ∪ a.

(** lodash [pick(object, paths)] for top-level property names: the
    properties of [object] whose name is listed, and only those that the
    object has. *)
Definition pick (object : JSObject) (paths : list string) : JSObject :=
  filter (λ kv, kv.1 ∈ paths) object.

(** lodash [isEqual] on plain objects of primitive values. *)
Definition isEqual (a b : JSObject) : bool := bool_decide (a = b).

End JS.

(** ** JSX trees *)

Module React.
Import JS.

#[warnings="-register-all"]
Inductive Node : Type :=
| NValue (v : JSValue)        (* [{expr}] in child position *)
| NText (s : string)          (* literal JSX text *)
| NElem (tag : string) (attrs : gmap string JSValue) (children : list Node).

(** [{cond && <X />}]: the element when [cond] is truthy, otherwise the
    falsy value itself is the child. *)
Definition jsx_and (cond : JSValue) (n : Node) : Node :=
  if truthy cond then n else NValue cond.

(** What React paints for a child: nothing for booleans, [null] and
    [undefined]; the text of a string or a number; the element itself. *)
Definition paints (n : Node) : bool :=
  match n with
  | NValue (VUndefined | VNull | VBool _) => false
  | NValue (VStr s) => negb (bool_decide (s = EmptyString))
  | NValue _ => true
  | NText _ => true
  | NElem _ _ _ => true
  end.

Definition tag_of (n : Node) : option string :=
  match n with NElem t _ _ => Some t | _ => None end.

Definition attrs_of (n : Node) : gmap string JSValue :=
  match n with NElem _ a _ => a | _ => ∅ end.

Definition children_of (n : Node) : list Node :=
  match n with NElem _ _ c => c | _ => [] end.

Definition is_elem (t : string) (n : Node) : bool :=
  bool_decide (tag_of n = Some t).

(** Attribute list of an element written with explicit attributes followed
    by a spread: [<T a=.. b=.. {...rest} />]. *)
Definition with_spread (explicit : list (string * JSValue))
    (rest : gmap string JSValue) : gmap string JSValue :=
  spread (list_to_map explicit) rest.

End React.

(** ** The field decorator: [StyledInputField] *)

Module FieldDecorator.
Import JS React.

(** The attributes a render-prop child is called with. *)
Record ComputedProps : Type := {
  cp_name : JSValue;
  cp_id : JSValue;
  cp_type : JSValue;
  cp_error : JSValue;
  cp_success : JSValue;
  cp_disabled : JSValue;
  cp_required : JSValue;
}.

(** [children] is a node or a function ([typeof children === 'function']). *)
Inductive Content : Type :=
| StaticNode (n : Node)
| Builder (f : ComputedProps → Node).

Record Props : Type := {
  children : Content;
  label : JSValue;
  htmlFor : JSValue;
  name : JSValue;
  error : JSValue;
  hint : JSValue;
  success : JSValue;
  disabled : JSValue;
  required : JSValue;
  inputType : JSValue;
  labelFontSize : JSValue;
  labelFontWeight : JSValue;
  labelColor : JSValue;
  labelProps : option JSObject;
  hideOptionalLabel : JSValue;
  useRequiredLabel : JSValue;
  isPrivate : JSValue;
  helpText : JSValue;
  props : JSObject;           (* the rest, passed to the outer [Box] *)
}.

(** [StyledInputField.defaultProps]: used where the prop is [undefined]. *)
Definition default_prop (given dflt : JSValue) : JSValue :=
  match given with VUndefined => dflt | _ => given end.

Definition defaultProps (p : Props) : Props :=
  {| children := children p; label := label p; htmlFor := htmlFor p;
     name := name p; error := error p; hint := hint p;
     success := success p; disabled := disabled p; required := required p;
     inputType := inputType p; labelFontSize := labelFontSize p;
     labelFontWeight := default_prop (labelFontWeight p) (VStr "normal");
     labelColor := default_prop (labelColor p) (VStr "black.800");
     labelProps := labelProps p; hideOptionalLabel := hideOptionalLabel p;
     useRequiredLabel := useRequiredLabel p; isPrivate := isPrivate p;
     helpText := helpText p; props := props p |}.

Definition PrivateIconWithSpace : Node :=
  NElem "React.Fragment" ∅
    [ NText "&nbsp;";
      NElem "PrivateInfoIcon" {[ "tooltipProps" := VObj "containerVerticalAlign: text-top" ]} [] ].

Definition QuestionMarkIconWithSpace (helpText labelFontSize labelColor : JSValue) : Node :=
  NElem "StyledTooltip" {[ "content" := helpText ]}
    [ NText "&nbsp;";
      NElem "Question" (list_to_map [("size", labelFontSize); ("color", labelColor)]) [] ].

Definition isCheckbox (p : Props) : bool :=
  strict_eq (inputType p) (VStr "checkbox").

(** [htmlFor = htmlFor || (name ? `input-${name}` : undefined)] *)
Definition htmlFor' (p : Props) : JSValue :=
  js_or (htmlFor p)
        (if truthy (name p) then VStr ("input-" ++ to_string (name p)) else VUndefined).

Definition displayOptionalLabel (p : Props) : bool :=
  if truthy (hideOptionalLabel p) then false else strict_eq (required p) (VBool false).

Definition displayRequiredLabel (p : Props) : bool :=
  if truthy (useRequiredLabel p) then strict_eq (required p) (VBool true) else false.

(** [labelFontWeight = labelProps?.fontWeight || labelFontWeight] and
    [labelFontSize = labelProps?.labelFontSize || labelFontSize]. *)
Definition labelFontWeight' (p : Props) : JSValue :=
  js_or (get_opt (labelProps p) "fontWeight") (labelFontWeight p).

Definition labelFontSize' (p : Props) : JSValue :=
  js_or (get_opt (labelProps p) "labelFontSize") (labelFontSize p).

Definition labelContent (p : Props) : Node :=
  jsx_and (label p)
    (NElem "Span"
       (list_to_map [("color", labelColor p); ("fontSize", labelFontSize' p);
                     ("fontWeight", labelFontWeight' p)])
       [NValue (label p)]).

(** The three ways the label text is decorated (lines 80-98). *)
Definition labelDecoration (p : Props) : Node :=
  if displayOptionalLabel p && negb (isCheckbox p) then
    NElem "Span" (list_to_map [("color", VStr "black.700"); ("fontWeight", VStr "normal")])
      [ NElem "FormattedMessage"
          (list_to_map [("id", VStr "OptionalFieldLabel");
                        ("defaultMessage", VStr "{field} (optional)")])
          [labelContent p];               (* values = { field: labelContent } *)
        jsx_and (isPrivate p) PrivateIconWithSpace ]
  else if displayRequiredLabel p then
    NElem "Span" {[ "color" := VStr "black.700" ]}
      [ labelContent p; NText " * "; jsx_and (isPrivate p) PrivateIconWithSpace ]
  else
    NElem "React.Fragment" ∅
      [ labelContent p; jsx_and (isPrivate p) PrivateIconWithSpace ].

Definition labelSection (p : Props) : Node :=
  jsx_and (label p)
    (NElem "P"
       (with_spread
          [ ("as", VStr "label");
            ("htmlFor", htmlFor' p);
            ("display", VStr "flex");
            ("alignItems", VStr "center");
            ("fontSize", labelFontSize' p);
            ("fontWeight", labelFontWeight' p);
            ("mb", if isCheckbox p then VNum 0 else VNum 2);
            ("mr", VNum 2);
            ("ml", if isCheckbox p then VNum 2 else VUndefined);
            ("cursor", if isCheckbox p then VStr "pointer" else VUndefined) ]
          (default ∅ (labelProps p)))
       [ labelDecoration p;
         jsx_and (helpText p)
           (QuestionMarkIconWithSpace (helpText p) (labelFontSize' p) (labelColor p)) ]).

(** The object the render-prop child is called with (lines 105-113). *)
Definition computedProps (p : Props) : ComputedProps :=
  {| cp_name := js_or (name p) (htmlFor' p);
     cp_id := htmlFor' p;
     cp_type := inputType p;
     cp_error := js_or (Boolean (error p)) VUndefined;
     cp_success := success p;
     cp_disabled := disabled p;
     cp_required := required p |}.

Definition childSection (p : Props) : Node :=
  match children p with
  | Builder f => f (computedProps p)
  | StaticNode n => n
  end.

(** [{error && typeof error === 'string' && (<Box pt={2}>...)}] *)
Definition errorSection (p : Props) : Node :=
  jsx_and (js_and (error p) (VBool (strict_eq (VStr (typeof (error p))) (VStr "string"))))
    (NElem "Box" {[ "pt" := VNum 2 ]}
       [ NElem "ExclamationCircle"
           (list_to_map [("color", VStr "#E03F6A"); ("size", VNum 16)]) [];
         NElem "Span"
           (list_to_map [("ml", VNum 1); ("color", VStr "black.700");
                         ("fontSize", VStr "14px"); ("css", VObj "verticalAlign: middle")])
           [NValue (error p)] ]).

(** [{hint && !error && (<Box mt="6px">...)}] *)
Definition hintSection (p : Props) : Node :=
  jsx_and (js_and (hint p) (js_not (error p)))
    (NElem "Box" {[ "mt" := VStr "6px" ]}
       [ NElem "Span"
           (list_to_map [("fontSize", VStr "12px"); ("color", VStr "black.700");
                         ("css", VObj "verticalAlign: middle")])
           [NValue (hint p)] ]).

Definition render (p : Props) : Node :=
  NElem "Box" (props p)
    [ NElem "Flex"
        (list_to_map [("flexDirection",
                       if isCheckbox p then VStr "row-reverse" else VStr "column");
                      ("justifyContent", VStr "flex-end")])
        [ labelSection p; childSection p ];
      errorSection p;
      hintSection p ].

Definition StyledInputField (p : Props) : Node := render (defaultProps p).

(** *** Reading a rendered field back *)

(** The children of the outer [Box], by position. *)
Definition flex_of (tree : Node) : Node := default (NValue VUndefined) (children_of tree !! 0).
Definition rendered_label (tree : Node) : Node :=
  default (NValue VUndefined) (children_of (flex_of tree) !! 0).
Definition rendered_child (tree : Node) : Node :=
  default (NValue VUndefined) (children_of (flex_of tree) !! 1).
Definition rendered_error (tree : Node) : Node :=
  default (NValue VUndefined) (children_of tree !! 1).
Definition rendered_hint (tree : Node) : Node :=
  default (NValue VUndefined) (children_of tree !! 2).

(** A [<label>] is rendered: the [P as="label"] element. *)
Definition has_label (tree : Node) : bool := is_elem "P" (rendered_label tree).

(** The decorated label text: first child of the label element. *)
Definition decoration_of (tree : Node) : list Node :=
  children_of (default (NValue VUndefined) (children_of (rendered_label tree) !! 0)).

Definition is_optional_message (n : Node) : bool :=
  is_elem "FormattedMessage" n
  && bool_decide (attrs_of n !! "defaultMessage" = Some (VStr "{field} (optional)")).

Definition is_required_marker (n : Node) : bool :=
  match n with NText s => bool_decide (s = " * ") | _ => false end.

(** The label carries the "(optional)" qualifier / the required marker. *)
Definition has_optional_qualifier (tree : Node) : bool :=
  existsb is_optional_message (decoration_of tree).
Definition has_required_marker (tree : Node) : bool :=
  existsb is_required_marker (decoration_of tree).

(** The error block [<Box pt={2}>] showing text [v]; the hint block
    [<Box mt="6px">] showing [v]. *)
Definition is_error_block (n : Node) : bool := is_elem "Box" n.
Definition is_hint_block (n : Node) : bool := is_elem "Box" n.

Definition shown_value (block : Node) : option JSValue :=
  match last (children_of block) with
  | Some (NElem _ _ [NValue v]) => Some v
  | _ => None
  end.

End FieldDecorator.

(** ** Effects of event handlers *)

Module Effect.

(** A thrown JavaScript error (also: the reason of a rejected promise). *)
Inductive Exn : Type := Error (message : string).

#[global] Instance Exn_eq_dec : EqDecision Exn.
Proof. solve_decision. Defined.

Inductive Outcome (A : Type) : Type :=
| Returned (a : A)
| Thrown (e : Exn).
Arguments Returned {A} a.
Arguments Thrown {A} e.

(** A handler over a world [W]: it returns or throws, and leaves a world
    behind either way. An [await]ed promise is run in sequence; a
    rejection is a throw. *)
Definition M (W A : Type) : Type := W → Outcome A * W.

#[global] Instance M_ret {W} : MRet (M W) := λ A a w, (Returned a, w).

#[global] Instance M_bind {W} : MBind (M W) := λ A B f m w,
  match m w with
  | (Returned a, w') => f a w'
  | (Thrown e, w') => (Thrown e, w')
  end.

Definition throw {W A} (e : Exn) : M W A := λ w, (Thrown e, w).

(** [try { body } catch (e) { handler }] *)
Definition try_catch {W A} (body : M W A) (handler : Exn → M W A) : M W A :=
  λ w, match body w with
       | (Thrown e, w') => handler e w'
       | r => r
       end.

Definition update_world {W} (f : W → W) : M W unit := λ w, (Returned tt, f w).

(** A promise that is already settled. *)
Definition await {W A} (p : Outcome A) : M W A := λ w, (p, w).

Definition returns {A} (o : Outcome A) : bool :=
  match o with Returned _ => true | Thrown _ => false end.

End Effect.

(** ** Toasts and translated messages *)

Module Toasts.
Import JS Effect.

Inductive TOAST_TYPE : Type := SUCCESS | ERROR.

#[global] Instance TOAST_TYPE_eq_dec : EqDecision TOAST_TYPE.
Proof. solve_decision. Defined.

(** The message descriptors of the two components. *)
Inductive Descriptor : Type :=
| ApplicationUpdated     (* Application {name} updated, the name in quotes *)
| ApplicationDeleted.    (* Application {name} deleted *)

(** A displayed string, kept symbolic: [intl.formatMessage(descriptor,
    values)] or [i18nGraphqlException(intl, e)]. *)
Inductive Message : Type :=
| formatMessage (d : Descriptor) (values : JSObject)
| i18nGraphqlException (e : Exn).

Record Toast : Type := {
  type : TOAST_TYPE;
  variant : option string;
  message : Message;
}.

(** How many toasts of one type were raised. *)
Definition raised (t : TOAST_TYPE) (l : list Toast) : nat :=
  length (filter (λ x, type x = t) l).

End Toasts.

(** ** The Apollo cache, as far as the delete flow uses it *)

Module Apollo.
Import JS.

(** A stored field value: a scalar, a reference to a normalised entity, a
    list, or an embedded object without identity. *)
#[warnings="-register-all"]
Inductive StoreValue : Type :=
| SVal (v : JSValue)
| SRef (id : string)
| SList (items : list StoreValue)
| SObj (fields : list (string * StoreValue)).

(** A store field name is a field name with its serialised arguments:
    [oAuthApplications({limit:10})] is [("oAuthApplications", "{limit:10}")]. *)
Abbreviation StoreObject := (gmap (string * string) StoreValue).

Record Cache : Type := {
  data : gmap string StoreObject;   (* entities by cache id *)
  rootIds : gset string;            (* retained ids: ROOT_QUERY, ... *)
}.

(** [cache.identify(object)]: [__typename:id], or [undefined] without them. *)
Definition identify (object : JSObject) : option string :=
  match object !! "__typename", object !! "id" with
  | Some (VStr t), Some (VStr i) => Some (t ++ ":" ++ i)
  | Some (VStr t), Some (VNum n) => Some (t ++ ":" ++ pretty n)
  | _, _ => None
  end.

(** [cache.evict({ id })]: the whole entity goes; nothing happens when
    [id] is [undefined]. *)
Definition evict (id : option string) (c : Cache) : Cache :=
  match id with
  | Some dataId => {| data := delete dataId (data c); rootIds := rootIds c |}
  | None => c
  end.

Fixpoint refs_of (v : StoreValue) : list string :=
  match v with
  | SVal _ => []
  | SRef id => [id]
  | SList items => flat_map refs_of items
  | SObj fields => flat_map (λ kv, refs_of kv.2) fields
  end.

(** [findChildRefIds(id)] *)
Definition findChildRefIds (d : gmap string StoreObject) (id : string) : list string :=
  match d !! id with
  | Some o => flat_map (λ kv, refs_of kv.2) (map_to_list o)
  | None => []
  end.

Fixpoint retained (fuel : nat) (d : gmap string StoreObject) (ids : gset string) : gset string :=
  match fuel with
  | O => ids
  | S n => retained n d (ids ∪ list_to_set (flat_map (findChildRefIds d) (elements ids)))
  end.

(** [cache.gc()]: entities not reachable from the retained roots go. *)
Definition gc (c : Cache) : Cache :=
  let keep := retained (size (data c)) (data c) (rootIds c) in
  {| data := filter (λ kv, kv.1 ∈ keep) (data c); rootIds := rootIds c |}.

(** [cache.modify({ id, fields: { [fieldName]: (_, { DELETE }) => DELETE } })]:
    every stored variant of the field is deleted from the entity; an entity
    left without fields is removed; nothing happens when [id] is
    [undefined], the entity is absent or it has no such field. *)
Definition modify_DELETE (id : option string) (fieldName : string) (c : Cache) : Cache :=
  match id with
  | None => c
  | Some dataId =>
      match data c !! dataId with
      | None => c
      | Some storeObject =>
          let kept : StoreObject := filter (λ kv, kv.1.1 ≠ fieldName) storeObject in
          if decide (map_Forall (λ key _, key.1 ≠ fieldName) storeObject) then c
          else if decide (kept = ∅)
               then {| data := delete dataId (data c); rootIds := rootIds c |}
               else {| data := <[dataId := kept]> (data c); rootIds := rootIds c |}
      end
  end.

(** Entity [appId] is referenced from a stored [fieldName] field of entity
    [ownerId]. *)
Definition listed_in (c : Cache) (ownerId fieldName appId : string) : Prop :=
  ∃ o key v, data c !! ownerId = Some o ∧ o !! key = Some v
             ∧ key.1 = fieldName ∧ appId ∈ refs_of v.

End Apollo.

(** ** The settings screen and the delete dialog *)

Module OAuth.
Import JS React Effect Toasts Apollo.

(** What the handlers of the screen read and write. *)
Record World : Type := {
  initialValues : JSObject;        (* Formik: initialValues.current, the baseline *)
  values : JSObject;               (* Formik: state.values *)
  showDeleteModal : bool;          (* React.useState(false) of the screen *)
  toasts : list Toast;             (* addToast calls, oldest first *)
  sent : list (string * JSObject); (* mutations sent: name and variables *)
  cache : Cache;                   (* the Apollo cache *)
  onDelete_calls : list JSObject;  (* arguments of the onDelete calls *)
}.

Definition addToast (t : Toast) : M World unit :=
  update_world (λ w,
    {| initialValues := initialValues w; values := values w;
       showDeleteModal := showDeleteModal w; toasts := toasts w ++ [t];
       sent := sent w; cache := cache w; onDelete_calls := onDelete_calls w |}).

Definition send (mutation : string) (variables : JSObject) : M World unit :=
  update_world (λ w,
    {| initialValues := initialValues w; values := values w;
       showDeleteModal := showDeleteModal w; toasts := toasts w;
       sent := sent w ++ [(mutation, variables)]; cache := cache w;
       onDelete_calls := onDelete_calls w |}).

Definition with_cache (f : Cache → Cache) : M World unit :=
  update_world (λ w,
    {| initialValues := initialValues w; values := values w;
       showDeleteModal := showDeleteModal w; toasts := toasts w;
       sent := sent w; cache := f (cache w); onDelete_calls := onDelete_calls w |}).

Definition setShowDeleteModal (b : bool) : M World unit :=
  update_world (λ w,
    {| initialValues := initialValues w; values := values w;
       showDeleteModal := b; toasts := toasts w;
       sent := sent w; cache := cache w; onDelete_calls := onDelete_calls w |}).

(** *** Formik *)

(** [dirty = !isEqual(initialValues.current, state.values)] *)
Definition dirty (w : World) : bool := negb (isEqual (initialValues w) (values w)).

(** [resetForm({ values })]: the given values become both the baseline and
    the current values. *)
Definition resetForm (next : JSObject) : M World unit :=
  update_world (λ w,
    {| initialValues := next; values := next;
       showDeleteModal := showDeleteModal w; toasts := toasts w;
       sent := sent w; cache := cache w; onDelete_calls := onDelete_calls w |}).

(** [handleChange] of a text input: [values[field] = text]. *)
Definition handleChange (field text : string) : M World unit :=
  update_world (λ w,
    {| initialValues := initialValues w; values := <[field := VStr text]> (values w);
       showDeleteModal := showDeleteModal w; toasts := toasts w;
       sent := sent w; cache := cache w; onDelete_calls := onDelete_calls w |}).

(** *** ObfuscatedClientSecret *)

(** The component's render for a value of its [show] state. *)
Definition ObfuscatedClientSecret (secret : JSValue) (show : bool) : Node :=
  NElem "P" ∅
    [ jsx_and (VBool show)
        (NElem "Span"
           (list_to_map [("data-cy", VStr "unhidden-secret");
                         ("overflowWrap", VStr "anywhere"); ("mr", VNum 2)])
           [NValue secret]);
      NElem "StyledLink"
        (list_to_map [("data-cy", VStr "show-secret-btn"); ("as", VStr "button");
                      ("color", VStr "blue.600")])
        [ if show
          then NElem "FormattedMessage"
                 (list_to_map [("id", VStr "Hide"); ("defaultMessage", VStr "Hide")]) []
          else NElem "FormattedMessage" {[ "defaultMessage" := VStr "Show" ]} [] ] ].

(** [onClick={() => setShow(!show)}] *)
Definition onClick_show (show : bool) : bool := negb show.

(** [React.useState(false)], then [n] presses of the button. *)
Definition show_after (n : nat) : bool := Nat.iter n onClick_show false.

(** The secret on screen: the content of the [unhidden-secret] span. *)
Definition displayed_secret (tree : Node) : option JSValue :=
  match children_of tree with
  | NElem "Span" a [NValue v] :: _ =>
      if bool_decide (a !! "data-cy" = Some (VStr "unhidden-secret")) then Some v else None
  | _ => None
  end.

(** *** The update form *)

(** The [updateApplication] function of [useMutation]: the variables go to
    the server, whose answer [server] is [result.data.updateApplication] or
    a rejection. *)
Definition updateApplication (server : JSObject → Outcome JSObject)
    (application : JSObject) : M World JSObject :=
  send "UpdateOAuthApplication" application ;; await (server application).

(** [applicationInput = { id: data.application.id, ...filteredValues }] *)
Definition applicationInput (application values : JSObject) : JSObject :=
  let filteredValues := pick values ["name"; "description"; "redirectUri"] in
  spread {[ "id" := get application "id" ]} filteredValues.

(** The [onSubmit] of the Formik form (lines 133-149); [application] is
    [data.application]. *)
Definition onSubmit (application : JSObject) (server : JSObject → Outcome JSObject)
    (values : JSObject) : M World unit :=
  try_catch
    (result ← updateApplication server (applicationInput application values);
     addToast {| type := SUCCESS; variant := None;
                 message := formatMessage ApplicationUpdated
                              {[ "name" := get result "name" ]} |} ;;
     resetForm result)
    (λ e, addToast {| type := ERROR; variant := Some "light";
                      message := i18nGraphqlException e |}).

(** Modelled from the spec: the component [WarnIfUnsavedChanges] is not
    part of the sources at hand; the guard it installs is active exactly
    when its [hasUnsavedChanges] prop is true. *)
Definition WarnIfUnsavedChanges (hasUnsavedChanges : bool) : bool := hasUnsavedChanges.

(** What the render of the ready screen derives from the state. *)
Record View : Type := {
  guard_active : bool;        (* <WarnIfUnsavedChanges hasUnsavedChanges=... /> *)
  submit_disabled : bool;     (* disabled={!dirty} *)
  modal_rendered : bool;      (* {showDeleteModal && <DeleteOAuthApplicationModal />} *)
  name_field : JSValue;       (* the value of the input bound to [name] *)
}.

Definition OAuthApplicationSettings (w : World) : View :=
  {| guard_active := WarnIfUnsavedChanges (dirty w && negb (showDeleteModal w));
     submit_disabled := negb (dirty w);
     modal_rendered := showDeleteModal w;
     name_field := get (values w) "name" |}.

(** *** DeleteOAuthApplicationModal *)

Inductive HandlerResult : Type :=
| CONFIRMATION_MODAL_TERMINATE
| undefined.

(** [data.deleteApplication] of a delete mutation: [{ id, account: { id } }]. *)
Record Deleted : Type := {
  deleted_id : JSValue;
  account : JSObject;
}.

(** The [update] option of the mutation (lines 29-37). *)
Definition update (application : JSObject) (deleteApplication_data : Deleted)
    (c : Cache) : Cache :=
  let c := evict (identify application) c in
  let c := gc c in
  let accountCacheId := identify (account deleteApplication_data) in
  modify_DELETE accountCacheId "oAuthApplications" c.

(** The [deleteApplication] function of [useMutation]: once the server has
    answered, Apollo runs [update] on the cache; a rejection is thrown. *)
Definition deleteApplication (application : JSObject) (server : JSValue → Outcome Deleted)
    (id : JSValue) : M World Deleted :=
  send "DeleteOAuthApplication" {[ "id" := id ]} ;;
  d ← await (server id);
  with_cache (update application d) ;;
  mret d.

(** A call of the [onDelete] prop: the call is recorded, and the callback
    returns ([None]) or throws. *)
Definition call_onDelete (onDelete : JSObject → option Exn) (arg : JSObject) : M World unit :=
  update_world (λ w,
    {| initialValues := initialValues w; values := values w;
       showDeleteModal := showDeleteModal w; toasts := toasts w;
       sent := sent w; cache := cache w;
       onDelete_calls := onDelete_calls w ++ [arg] |}) ;;
  match onDelete arg with
  | None => mret tt
  | Some e => throw e
  end.

(** The [continueHandler] of the confirmation dialog (lines 46-58). *)
Definition continueHandler (application : JSObject) (server : JSValue → Outcome Deleted)
    (onDelete : JSObject → option Exn) : M World HandlerResult :=
  try_catch
    (deleteApplication application server (get application "id") ;;
     call_onDelete onDelete application ;;
     addToast {| type := SUCCESS; variant := None;
                 message := formatMessage ApplicationDeleted
                              {[ "name" := get application "name" ]} |} ;;
     mret CONFIRMATION_MODAL_TERMINATE)
    (λ e, addToast {| type := ERROR; variant := Some "light";
                      message := i18nGraphqlException e |} ;;
          mret undefined).

(** *** The toasts of the two handlers *)

(** The success toast of [onSubmit] for the server's answer [result]. *)
Definition updated_toast (result : JSObject) : Toast :=
  {| type := SUCCESS; variant := None;
     message := formatMessage ApplicationUpdated {[ "name" := get result "name" ]} |}.

(** The success toast of [continueHandler]. *)
Definition deleted_toast (application : JSObject) : Toast :=
  {| type := SUCCESS; variant := None;
     message := formatMessage ApplicationDeleted {[ "name" := get application "name" ]} |}.

(** The toast of both [catch] blocks. *)
Definition error_toast (e : Exn) : Toast :=
  {| type := ERROR; variant := Some "light"; message := i18nGraphqlException e |}.

(** *** The screen as a transition system *)

Inductive Event : Type :=
| Change (field text : string)                    (* typing in a field *)
| Submit (server : JSObject → Outcome JSObject)   (* the submit button *)
| OpenDelete                                      (* the delete button *)
| CloseDelete                                     (* onClose of the dialog *)
| ConfirmDelete (server : JSValue → Outcome Deleted)
                (onDelete : JSObject → option Exn). (* the dialog's continue button *)

(** The world after an event; [application] is [data.application] and
    [validate] is the form's validation, from field values to the object
    of field errors. The submit button is disabled while the form is not
    dirty, Formik calls [onSubmit] only when validation reports no error,
    and the dialog's buttons exist only while it is rendered. *)
Definition step (validate : JSObject → JSObject) (application : JSObject)
    (ev : Event) (w : World) : World :=
  match ev with
  | Change field text => (handleChange field text w).2
  | Submit server =>
      if dirty w && bool_decide (validate (values w) = ∅)
      then (onSubmit application server (values w) w).2 else w
  | OpenDelete => (setShowDeleteModal true w).2
  | CloseDelete => if showDeleteModal w then (setShowDeleteModal false w).2 else w
  | ConfirmDelete server onDelete =>
      if showDeleteModal w then (continueHandler application server onDelete w).2 else w
  end.

(** The screen once the query has loaded [application]. *)
Definition ready (application : JSObject) (c : Cache) : World :=
  {| initialValues := application; values := application;
     showDeleteModal := false; toasts := []; sent := [];
     cache := c; onDelete_calls := [] |}.

Inductive reachable (validate : JSObject → JSObject) (application : JSObject)
    (c : Cache) : World → Prop :=
| reachable_ready : reachable validate application c (ready application c)
| reachable_step ev w :
    reachable validate application c w →
    reachable validate application c (step validate application ev w).

End OAuth.

(** ** Concrete configurations *)

Module Examples.
Import JS React FieldDecorator.

(** A field with every prop left out, around a plain input. *)
Definition bare (c : Content) : Props :=
  {| children := c; label := VUndefined; htmlFor := VUndefined; name := VUndefined;
     error := VUndefined; hint := VUndefined; success := VUndefined;
     disabled := VUndefined; required := VUndefined; inputType := VUndefined;
     labelFontSize := VUndefined; labelFontWeight := VUndefined;
     labelColor := VUndefined; labelProps := None;
     hideOptionalLabel := VUndefined; useRequiredLabel := VUndefined;
     isPrivate := VUndefined; helpText := VUndefined; props := ∅ |}.

(** A render-prop child: an [input] carrying the computed attributes. *)
Definition input_builder (cp : ComputedProps) : Node :=
  NElem "input"
    (list_to_map [("name", cp_name cp); ("id", cp_id cp); ("type", cp_type cp);
                  ("error", cp_error cp); ("required", cp_required cp)]) [].

(** [<StyledInputField label=.. required={..} inputType=..>] *)
Definition field (lbl req ty hide useReq : JSValue) : Props :=
  {| children := Builder input_builder; label := lbl; htmlFor := VUndefined;
     name := VStr "terms"; error := VUndefined; hint := VUndefined;
     success := VUndefined; disabled := VUndefined; required := req;
     inputType := ty; labelFontSize := VUndefined; labelFontWeight := VUndefined;
     labelColor := VUndefined; labelProps := None;
     hideOptionalLabel := hide; useRequiredLabel := useReq;
     isPrivate := VUndefined; helpText := VUndefined; props := ∅ |}.

(** [<StyledInputField name="email" error={..} hint={..}>] *)
Definition field_with (err hnt : JSValue) : Props :=
  {| children := Builder input_builder; label := VStr "Email"; htmlFor := VUndefined;
     name := VStr "email"; error := err; hint := hnt;
     success := VUndefined; disabled := VUndefined; required := VUndefined;
     inputType := VUndefined; labelFontSize := VUndefined; labelFontWeight := VUndefined;
     labelColor := VUndefined; labelProps := None;
     hideOptionalLabel := VUndefined; useRequiredLabel := VUndefined;
     isPrivate := VUndefined; helpText := VUndefined; props := ∅ |}.

End Examples.

Module Scenario.
Import JS React Effect Toasts Apollo OAuth.

(** The application as the query returns it. *)
Definition app : JSObject :=
  list_to_map
    [ ("__typename", VStr "Application"); ("id", VStr "app-1");
      ("name", VStr "Old Name"); ("description", VStr "Dashboard");
      ("redirectUri", VStr "https://example.com/callback");
      ("clientId", VStr "c1d"); ("clientSecret", VStr "s3cr3t") ].

(** A cache holding the application, its account and the account's list
    of applications. *)
Definition store : Cache :=
  {| data :=
       list_to_map
         [ ("ROOT_QUERY",
            list_to_map
              [ (("application", "{id:app-1}"), SRef "Application:app-1");
                (("account", "{slug:acme}"), SRef "Organization:acme") ]);
           ("Application:app-1",
            list_to_map
              [ (("id", EmptyString), SVal (VStr "app-1"));
                (("name", EmptyString), SVal (VStr "Old Name")) ]);
           ("Organization:acme",
            list_to_map
              [ (("id", EmptyString), SVal (VStr "acme"));
                (("oAuthApplications", "{limit:10}"),
                 SObj [ ("totalCount", SVal (VNum 1));
                        ("nodes", SList [SRef "Application:app-1"]) ]) ]) ];
     rootIds := {[ "ROOT_QUERY" ]} |}.

Definition acme : JSObject :=
  list_to_map [ ("__typename", VStr "Organization"); ("id", VStr "acme") ].

(** Servers: one that confirms what it is sent, one that fails; one that
    deletes, one that fails. *)
Definition accepting (input : JSObject) : Outcome JSObject := Returned (input ∪ app).
Definition failing (input : JSObject) : Outcome JSObject :=
  Thrown (Error "Forbidden").
Definition deleting (id : JSValue) : Outcome Deleted :=
  Returned {| deleted_id := id; account := acme |}.
Definition not_deleting (id : JSValue) : Outcome Deleted :=
  Thrown (Error "Network error").

(** An [onDelete] that navigates, and one whose navigation fails. *)
Definition navigates (_ : JSObject) : option Exn := None.
Definition navigation_fails (_ : JSObject) : option Exn :=
  Some (Error "Route cancelled").

(** No validation error at all. *)
Definition valid (_ : JSObject) : JSObject := ∅.

(** The screen after the user typed a new name. *)
Definition edited : World :=
  step valid app (Change "name" "New Name") (ready app store).

(** ... and after the delete button was pressed. *)
Definition confirming : World := step valid app OpenDelete (ready app store).

End Scenario.

(** ** More ways to read a rendered field and the screen *)

Module Readers.
Import JS React Effect Toasts Apollo FieldDecorator OAuth.

(** The attributes of the rendered [<label>]. *)
Definition label_attrs (tree : Node) : gmap string JSValue :=
  attrs_of (rendered_label tree).

(** [PrivateIconWithSpace]: a fragment of a space and the lock icon. *)
Definition is_private_icon (n : Node) : bool :=
  match n with
  | NElem _ _ [NText _; icon] => is_elem "PrivateInfoIcon" icon
  | _ => false
  end.

(** The lock icon follows the label text. *)
Definition has_private_icon (tree : Node) : bool :=
  existsb is_private_icon (decoration_of tree).

(** The second child of the label: the help affordance, if any. *)
Definition help_slot (tree : Node) : Node :=
  default (NValue VUndefined) (children_of (rendered_label tree) !! 1).

(** The message on the button of [ObfuscatedClientSecret]. *)
Definition button_message (tree : Node) : option JSValue :=
  match children_of tree with
  | [_; NElem "StyledLink" _ [msg]] => attrs_of msg !! "defaultMessage"
  | _ => None
  end.

(** The first child of [ObfuscatedClientSecret]: the secret, or nothing. *)
Definition secret_slot (tree : Node) : Node :=
  default (NValue VUndefined) (children_of tree !! 0).


(** The screen after a sequence of events, oldest first. *)
Definition run (validate : JSObject → JSObject) (application : JSObject)
    (events : list Event) (w : World) : World :=
  foldl (λ w ev, step validate application ev w) w events.

End Readers.

(** * Properties *)

(** ** The field decorator *)

Section FieldDecoratorFacts.
Import JS React FieldDecorator.

Lemma rendered_label_eq p : rendered_label (StyledInputField p) = labelSection (defaultProps p).
Proof. reflexivity. Qed.

Lemma rendered_child_eq p : rendered_child (StyledInputField p) = childSection (defaultProps p).
Proof. reflexivity. Qed.

Lemma rendered_error_eq p : rendered_error (StyledInputField p) = errorSection (defaultProps p).
Proof. reflexivity. Qed.

Lemma rendered_hint_eq p : rendered_hint (StyledInputField p) = hintSection (defaultProps p).
Proof. reflexivity. Qed.

End FieldDecoratorFacts.

Section LabelQualifiers.
Import JS React FieldDecorator.

Lemma decoration_of_label p :
  truthy (label p) = true →
  decoration_of (StyledInputField p) = children_of (labelDecoration (defaultProps p)).
Proof.
  intros Hl. unfold decoration_of. rewrite rendered_label_eq.
  unfold labelSection, jsx_and. simpl label. rewrite Hl. reflexivity.
Qed.

Lemma decoration_of_no_label p :
  truthy (label p) = false → decoration_of (StyledInputField p) = [].
Proof.
  intros Hl. unfold decoration_of. rewrite rendered_label_eq.
  unfold labelSection, jsx_and. simpl label. rewrite Hl. reflexivity.
Qed.

Lemma labelContent_not_marker q :
  is_required_marker (labelContent q) = false ∧ is_optional_message (labelContent q) = false.
Proof. unfold labelContent, jsx_and. destruct (truthy (label q)); split; reflexivity. Qed.

Lemma private_icon_not_marker v :
  is_required_marker (jsx_and v PrivateIconWithSpace) = false
  ∧ is_optional_message (jsx_and v PrivateIconWithSpace) = false.
Proof. unfold jsx_and. destruct (truthy v); split; reflexivity. Qed.

(** Which qualifier the decorated label carries, by the two flags. *)
Lemma qualifiers_of_decoration q :
  existsb is_optional_message (children_of (labelDecoration q))
    = displayOptionalLabel q && negb (isCheckbox q)
  ∧ existsb is_required_marker (children_of (labelDecoration q))
    = negb (displayOptionalLabel q && negb (isCheckbox q)) && displayRequiredLabel q.
Proof.
  destruct (labelContent_not_marker q) as [Hm Ho].
  destruct (private_icon_not_marker (isPrivate q)) as [Hpm Hpo].
  unfold labelDecoration.
  destruct (displayOptionalLabel q && negb (isCheckbox q)); simpl.
  - rewrite Hpm, Hpo. split; reflexivity.
  - destruct (displayRequiredLabel q); simpl; rewrite ?Hm, ?Ho, ?Hpm, ?Hpo; split; reflexivity.
Qed.

End LabelQualifiers.

Section LabelQualifierClaims.
Import JS React FieldDecorator Examples.

(** C5, as stated, fails for a checkbox: with [required={false}], no
    suppression of the optional label and a label given, the field of
    type [checkbox] is rendered with its plain label, without the
    "(optional)" qualifier (the guard [!isCheckbox] of line 80). *)
Lemma C5_checkbox_has_no_optional_qualifier :
  let p := field (VStr "I accept the terms") (VBool false) (VStr "checkbox")
                 VUndefined VUndefined in
  required p = VBool false
  ∧ truthy (hideOptionalLabel p) = false
  ∧ has_label (StyledInputField p) = true
  ∧ has_optional_qualifier (StyledInputField p) = false.
Proof. repeat split; vm_compute; reflexivity. Qed.

(** C5, amended: for every configuration with a label, if [required] is
    explicitly false, suppression of the optional label is not requested
    and the input is not a checkbox, the rendered label contains the
    "(optional)" qualifier; if [required] is explicitly true and the
    required-label mode is on, it contains the required marker; and no
    configuration at all renders both. *)
Theorem C5_label_qualifiers (p : Props) :
  (truthy (label p) = true → required p = VBool false →
   truthy (hideOptionalLabel p) = false → isCheckbox p = false →
   has_optional_qualifier (StyledInputField p) = true)
  ∧ (truthy (label p) = true → required p = VBool true →
     truthy (useRequiredLabel p) = true →
     has_required_marker (StyledInputField p) = true)
  ∧ has_optional_qualifier (StyledInputField p)
    && has_required_marker (StyledInputField p) = false.
Proof.
  destruct (qualifiers_of_decoration (defaultProps p)) as [Hopt Hreq].
  change (displayOptionalLabel (defaultProps p)) with (displayOptionalLabel p) in *.
  change (displayRequiredLabel (defaultProps p)) with (displayRequiredLabel p) in *.
  change (isCheckbox (defaultProps p)) with (isCheckbox p) in *.
  unfold has_optional_qualifier, has_required_marker.
  split; [|split].
  - intros Hl Hr Hh Hc. rewrite decoration_of_label, Hopt by done.
    unfold displayOptionalLabel. rewrite Hh, Hr, Hc. reflexivity.
  - intros Hl Hr Hu. rewrite decoration_of_label, Hreq by done.
    unfold displayOptionalLabel, displayRequiredLabel. rewrite Hu, Hr.
    destruct (truthy (hideOptionalLabel p)); reflexivity.
  - destruct (truthy (label p)) eqn:Hl.
    + rewrite decoration_of_label, Hopt, Hreq by done.
      destruct (displayOptionalLabel p && negb (isCheckbox p)); reflexivity.
    + rewrite decoration_of_no_label by done. reflexivity.
Qed.

Lemma C5_label_qualifiers_witness :
  has_optional_qualifier
    (StyledInputField (field (VStr "Website") (VBool false) (VStr "url") VUndefined VUndefined))
  = true
  ∧ has_required_marker
      (StyledInputField (field (VStr "Website") (VBool true) (VStr "url") VUndefined (VBool true)))
    = true.
Proof.
  split.
  - apply (C5_label_qualifiers
             (field (VStr "Website") (VBool false) (VStr "url") VUndefined VUndefined));
      reflexivity.
  - apply (C5_label_qualifiers
             (field (VStr "Website") (VBool true) (VStr "url") VUndefined (VBool true)));
      reflexivity.
Defined.

End LabelQualifierClaims.

Section ErrorAndHint.
Import JS React FieldDecorator Examples.

Lemma typeof_string v : typeof v = "string" ↔ ∃ s, v = VStr s.
Proof.
  split.
  - destruct v; simpl; intros H; try discriminate. eauto.
  - intros [s ->]. reflexivity.
Qed.

(** The error slot, by the kind of the error value. *)
Lemma errorSection_text q s :
  error q = VStr s → s ≠ EmptyString →
  is_error_block (errorSection q) = true
  ∧ shown_value (errorSection q) = Some (VStr s).
Proof.
  intros He Hs. unfold errorSection, jsx_and, js_and. rewrite He. simpl.
  rewrite bool_decide_eq_false_2 by done. simpl. split; reflexivity.
Qed.

Lemma errorSection_not_text q :
  typeof (error q) ≠ "string" →
  is_error_block (errorSection q) = false ∧ paints (errorSection q) = false
  ∨ errorSection q = NValue (error q) ∧ truthy (error q) = false.
Proof.
  intros Ht. unfold errorSection, jsx_and, js_and.
  destruct (truthy (error q)) eqn:He.
  - left. destruct (error q); simpl in *; try discriminate; try (split; reflexivity).
    congruence.
  - right. rewrite He. done.
Qed.

(** The hint slot: the hint block exactly when the hint is truthy and the
    error falsy. *)
Lemma hintSection_block q :
  is_hint_block (hintSection q) = truthy (hint q) && negb (truthy (error q)).
Proof.
  unfold hintSection, jsx_and, js_and, js_not.
  destruct (truthy (hint q)) eqn:Hh; simpl.
  - destruct (truthy (error q)); reflexivity.
  - rewrite Hh. reflexivity.
Qed.

Lemma hintSection_shown q :
  truthy (hint q) = true → truthy (error q) = false →
  shown_value (hintSection q) = Some (hint q).
Proof.
  intros Hh He. unfold hintSection, jsx_and, js_and, js_not.
  rewrite Hh, He. reflexivity.
Qed.

Lemma hintSection_suppressed q :
  truthy (hint q) = true → truthy (error q) = true →
  hintSection q = NValue (VBool false).
Proof.
  intros Hh He. unfold hintSection, jsx_and, js_and, js_not.
  rewrite Hh, He. reflexivity.
Qed.

(** C6, as stated, fails for an error that is truthy but no text: with
    [error={true}] and a hint, the error is not a non-empty text value and
    a hint exists, yet the hint is not rendered. *)
Lemma C6_hint_hidden_by_non_text_error :
  let p := field_with (VBool true) (VStr "We never share it") in
  typeof (error p) ≠ "string"
  ∧ truthy (hint p) = true
  ∧ is_hint_block (rendered_hint (StyledInputField p)) = false
  ∧ paints (rendered_hint (StyledInputField p)) = false.
Proof. repeat split; vm_compute; congruence. Qed.

(** C6, amended: for every configuration, if the error is a non-empty text
    value, the error block is rendered below the field, showing that text,
    and the hint block is not rendered; if the error is falsy (absent or
    empty) and a hint exists, the hint block is rendered, showing the
    hint. *)
Theorem C6_error_or_hint (p : Props) :
  (∀ s, error p = VStr s → s ≠ EmptyString →
     is_error_block (rendered_error (StyledInputField p)) = true
     ∧ shown_value (rendered_error (StyledInputField p)) = Some (VStr s)
     ∧ is_hint_block (rendered_hint (StyledInputField p)) = false)
  ∧ (truthy (error p) = false → truthy (hint p) = true →
     is_hint_block (rendered_hint (StyledInputField p)) = true
     ∧ shown_value (rendered_hint (StyledInputField p)) = Some (hint p)).
Proof.
  rewrite rendered_error_eq, rendered_hint_eq. split.
  - intros s He Hs.
    destruct (errorSection_text (defaultProps p) s He Hs) as [Hb Hv].
    repeat split; [done | done |].
    rewrite hintSection_block. simpl error. rewrite He. simpl.
    rewrite bool_decide_eq_false_2 by done. apply andb_false_r.
  - intros He Hh. split.
    + rewrite hintSection_block. simpl error. simpl hint. rewrite He, Hh. reflexivity.
    + apply (hintSection_shown (defaultProps p)); done.
Qed.

Lemma C6_error_or_hint_witness :
  (is_error_block (rendered_error
     (StyledInputField (field_with (VStr "Invalid email") (VStr "We never share it")))) = true
   ∧ shown_value (rendered_error
       (StyledInputField (field_with (VStr "Invalid email") (VStr "We never share it"))))
     = Some (VStr "Invalid email")
   ∧ is_hint_block (rendered_hint
       (StyledInputField (field_with (VStr "Invalid email") (VStr "We never share it")))) = false)
  ∧ (is_hint_block (rendered_hint
       (StyledInputField (field_with VUndefined (VStr "We never share it")))) = true
     ∧ shown_value (rendered_hint
         (StyledInputField (field_with VUndefined (VStr "We never share it"))))
       = Some (VStr "We never share it")).
Proof.
  split.
  - apply (proj1 (C6_error_or_hint
                    (field_with (VStr "Invalid email") (VStr "We never share it")))
                 "Invalid email"); [reflexivity | discriminate].
  - apply (proj2 (C6_error_or_hint (field_with VUndefined (VStr "We never share it"))));
      reflexivity.
Defined.

(** C10: for every error value that is truthy and not a string, the
    field renders neither the error block nor the hint block (the error
    slot paints nothing, and so does the hint slot whenever a hint
    exists), while a render-prop child is still called with
    [error = true]. *)
Theorem C10_non_text_error (p : Props) :
  truthy (error p) = true → typeof (error p) ≠ "string" →
  is_error_block (rendered_error (StyledInputField p)) = false
  ∧ paints (rendered_error (StyledInputField p)) = false
  ∧ is_hint_block (rendered_hint (StyledInputField p)) = false
  ∧ (truthy (hint p) = true → paints (rendered_hint (StyledInputField p)) = false)
  ∧ ∀ f, children p = Builder f →
      ∃ cp, rendered_child (StyledInputField p) = f cp ∧ cp_error cp = VBool true.
Proof.
  intros He Ht.
  rewrite rendered_error_eq, rendered_hint_eq, rendered_child_eq.
  destruct (errorSection_not_text (defaultProps p) Ht) as [[Hb Hp] | [_ Hf]];
    [| simpl in Hf; congruence].
  repeat split; [done | done | | |].
  - rewrite hintSection_block. simpl error. rewrite He. apply andb_false_r.
  - intros Hh. rewrite (hintSection_suppressed (defaultProps p)) by done. reflexivity.
  - intros f Hf. exists (computedProps (defaultProps p)). split.
    + unfold childSection. simpl children. rewrite Hf. reflexivity.
    + unfold computedProps, Boolean, js_or. simpl. rewrite He. reflexivity.
Qed.

Lemma C10_non_text_error_witness :
  is_error_block (rendered_error
    (StyledInputField (field_with (VObj "validation error") (VStr "We never share it")))) = false
  ∧ is_hint_block (rendered_hint
      (StyledInputField (field_with (VObj "validation error") (VStr "We never share it")))) = false.
Proof.
  destruct (C10_non_text_error
              (field_with (VObj "validation error") (VStr "We never share it")))
    as (H1 & _ & H3 & _); [reflexivity | discriminate |].
  exact (conj H1 H3).
Defined.

End ErrorAndHint.

Section MissingLabelAndIdentifiers.
Import JS React FieldDecorator Examples.

Lemma truthy_input_prefix s : truthy (VStr ("input-" ++ s)) = true.
Proof. reflexivity. Qed.

(** The identifier derived for the label and the child is truthy as soon
    as one of [htmlFor] and [name] is. *)
Lemma truthy_htmlFor' q :
  truthy (htmlFor' q) = truthy (htmlFor q) || truthy (name q).
Proof.
  unfold htmlFor', js_or.
  destruct (truthy (htmlFor q)) eqn:Hh; [done |].
  destruct (truthy (name q)); [apply truthy_input_prefix | reflexivity].
Qed.

(** C9: a field without a label is rendered all the same, its label
    section left out ([StyledInputField] is a total function, and for a
    falsy label the label slot holds the bare value, which paints nothing
    when the label is missing); and a render-prop child is called with
    an [id] that is [htmlFor], or else derived from [name], and a [name]
    that is [name], or else that [id], so that the two attributes are
    present together or absent together. *)
Theorem C9_missing_label_and_identifiers (p : Props) :
  (truthy (label p) = false →
     rendered_label (StyledInputField p) = NValue (label p)
     ∧ has_label (StyledInputField p) = false)
  ∧ (label p = VUndefined → paints (rendered_label (StyledInputField p)) = false)
  ∧ ∀ f, children p = Builder f →
      ∃ cp, rendered_child (StyledInputField p) = f cp
        ∧ cp_id cp = (if truthy (htmlFor p) then htmlFor p
                      else if truthy (name p)
                           then VStr ("input-" ++ to_string (name p))
                           else VUndefined)
        ∧ cp_name cp = (if truthy (name p) then name p else cp_id cp)
        ∧ truthy (cp_name cp) = truthy (cp_id cp).
Proof.
  rewrite rendered_label_eq, rendered_child_eq.
  assert (Hslot : truthy (label p) = false →
                  labelSection (defaultProps p) = NValue (label p)).
  { intros Hl. unfold labelSection, jsx_and. simpl label. rewrite Hl. reflexivity. }
  split; [| split].
  - intros Hl. unfold has_label. rewrite rendered_label_eq, (Hslot Hl). done.
  - intros Hl. rewrite Hslot; rewrite Hl; reflexivity.
  - intros f Hf. exists (computedProps (defaultProps p)).
    unfold childSection. simpl children. rewrite Hf.
    split; [reflexivity |]. split; [reflexivity |]. split; [reflexivity |].
    unfold computedProps, cp_name, cp_id, js_or.
    change (name (defaultProps p)) with (name p).
    destruct (truthy (name p)) eqn:Hn; [| reflexivity].
    rewrite truthy_htmlFor'. change (name (defaultProps p)) with (name p).
    rewrite Hn, orb_true_r. reflexivity.
Qed.

Lemma C9_missing_label_and_identifiers_witness :
  has_label (StyledInputField (bare (Builder input_builder))) = false
  ∧ paints (rendered_label (StyledInputField (bare (Builder input_builder)))) = false.
Proof.
  split.
  - apply (proj1 (C9_missing_label_and_identifiers (bare (Builder input_builder)))).
    reflexivity.
  - apply (proj1 (proj2 (C9_missing_label_and_identifiers (bare (Builder input_builder))))).
    reflexivity.
Defined.

End MissingLabelAndIdentifiers.

(** ** The reveal toggle *)

Section RevealToggle.
Import JS React OAuth.

Lemma show_after_odd n : show_after n = Nat.odd n.
Proof.
  induction n as [| n IH]; [reflexivity |].
  unfold show_after in *. simpl Nat.iter. rewrite IH.
  unfold onClick_show. rewrite Nat.odd_succ. apply Nat.negb_odd.
Qed.

Lemma displayed_secret_show secret (show : bool) :
  displayed_secret (ObfuscatedClientSecret secret show)
  = if show then Some secret else None.
Proof. destruct show; reflexivity. Qed.

(** C7: for every secret and every number [n] of presses of the reveal
    button, the secret is on screen exactly when [n] is odd, and what is
    on screen then is the secret itself. *)
Theorem C7_reveal_toggle (secret : JSValue) (n : nat) :
  displayed_secret (ObfuscatedClientSecret secret (show_after n))
  = if Nat.odd n then Some secret else None.
Proof. rewrite displayed_secret_show, show_after_odd. reflexivity. Qed.

End RevealToggle.

(** ** The update form *)

Section UpdateForm.
Import JS React Effect Toasts Apollo OAuth.

Lemma raised_app t l x :
  raised t (l ++ [x])%list = raised t l + (if decide (type x = t) then 1 else 0).
Proof.
  unfold raised. rewrite filter_app, length_app. f_equal.
  rewrite filter_cons, filter_nil. destruct (decide (type x = t)); reflexivity.
Qed.

(** One run of [onSubmit], by the answer of the server. *)
Lemma onSubmit_resolved application server values w result :
  server (applicationInput application values) = Returned result →
  onSubmit application server values w
  = (Returned tt,
     {| initialValues := result; values := result;
        showDeleteModal := showDeleteModal w;
        toasts := (toasts w ++ [updated_toast result])%list;
        sent := (sent w ++ [("UpdateOAuthApplication", applicationInput application values)])%list;
        cache := cache w; onDelete_calls := onDelete_calls w |}).
Proof.
  intros Hs. unfold onSubmit, try_catch, updateApplication, mbind, M_bind, await, send,
    addToast, resetForm, update_world. simpl. rewrite Hs. reflexivity.
Qed.

Lemma onSubmit_rejected application server values w e :
  server (applicationInput application values) = Thrown e →
  onSubmit application server values w
  = (Returned tt,
     {| initialValues := initialValues w; values := OAuth.values w;
        showDeleteModal := showDeleteModal w;
        toasts := (toasts w ++ [error_toast e])%list;
        sent := (sent w ++ [("UpdateOAuthApplication", applicationInput application values)])%list;
        cache := cache w; onDelete_calls := onDelete_calls w |}).
Proof.
  intros Hs. unfold onSubmit, try_catch, updateApplication, mbind, M_bind, await, send,
    addToast, resetForm, update_world. simpl. rewrite Hs. reflexivity.
Qed.

Lemma onSubmit_sent application server values w :
  sent (onSubmit application server values w).2
  = (sent w ++ [("UpdateOAuthApplication", applicationInput application values)])%list.
Proof.
  destruct (server (applicationInput application values)) as [result | e] eqn:Hs.
  - rewrite (onSubmit_resolved _ _ _ _ _ Hs). reflexivity.
  - rewrite (onSubmit_rejected _ _ _ _ _ Hs). reflexivity.
Qed.

Lemma pick_lookup (o : JSObject) paths k :
  pick o paths !! k = if decide (k ∈ paths) then o !! k else None.
Proof.
  unfold pick. destruct (decide (k ∈ paths)) as [Hin | Hout].
  - destruct (o !! k) as [v |] eqn:Hk.
    + apply map_lookup_filter_Some. done.
    + apply map_lookup_filter_None. left. done.
  - apply map_lookup_filter_None. right. intros v _. done.
Qed.

Lemma applicationInput_lookup application values k :
  applicationInput application values !! k
  = if decide (k ∈ ["name"; "description"; "redirectUri"]) then values !! k
    else if decide (k = "id") then Some (get application "id")
    else None.
Proof.
  unfold applicationInput, spread. rewrite lookup_union, pick_lookup.
  destruct (decide (k ∈ ["name"; "description"; "redirectUri"])) as [Hin | Hout].
  - assert (k ≠ "id") as Hne by (intros ->; set_solver).
    rewrite lookup_singleton_ne by done. destruct (values !! k); reflexivity.
  - destruct (decide (k = "id")) as [-> | Hne].
    + rewrite lookup_singleton_eq. reflexivity.
    + rewrite lookup_singleton_ne by done. reflexivity.
Qed.

(** C8: for every form-values object that is submitted, the variables sent
    with the update mutation hold the [id] of the loaded application and
    the [name], [description] and [redirectUri] of the form values, and
    nothing else: no [clientId], no [clientSecret], no other property of
    the form values. *)
Theorem C8_update_input (application : JSObject) (server : JSObject → Outcome JSObject)
    (values : JSObject) (w : World) :
  ∃ input,
    sent (onSubmit application server values w).2
      = (sent w ++ [("UpdateOAuthApplication", input)])%list
    ∧ input !! "id" = Some (get application "id")
    ∧ (∀ k, k ∈ ["name"; "description"; "redirectUri"] → input !! k = values !! k)
    ∧ (∀ k, k ∉ ["id"; "name"; "description"; "redirectUri"] → input !! k = None)
    ∧ input !! "clientId" = None
    ∧ input !! "clientSecret" = None
    ∧ ((∀ k, k ∈ ["name"; "description"; "redirectUri"] → is_Some (values !! k)) →
       dom input = {[ "id"; "name"; "description"; "redirectUri" ]}).
Proof.
  exists (applicationInput application values).
  split; [apply onSubmit_sent |].
  split; [rewrite applicationInput_lookup; reflexivity |].
  split.
  { intros k Hk. rewrite applicationInput_lookup. rewrite decide_True; done. }
  assert (Hother : ∀ k, k ∉ ["id"; "name"; "description"; "redirectUri"] →
                        applicationInput application values !! k = None).
  { intros k Hk. rewrite applicationInput_lookup.
    rewrite decide_False by set_solver. rewrite decide_False by set_solver. done. }
  split; [exact Hother |].
  split; [apply Hother; set_solver |].
  split; [apply Hother; set_solver |].
  intros Hall. apply set_eq. intros k. rewrite elem_of_dom, applicationInput_lookup.
  destruct (decide (k ∈ ["name"; "description"; "redirectUri"])) as [Hin | Hout].
  - split; [intros _; set_solver | intros _; by apply Hall].
  - destruct (decide (k = "id")) as [-> | Hne].
    + split; [intros _; set_solver | eauto].
    + split; [intros [? ?]; done | set_solver].
Qed.

End UpdateForm.

Section Submission.
Import JS React Effect Toasts Apollo OAuth Scenario.

Lemma dirty_reset (w : World) :
  initialValues w = OAuth.values w → dirty w = false.
Proof.
  intros H. unfold dirty, isEqual. rewrite H.
  rewrite bool_decide_eq_true_2; done.
Qed.

(** C1: for every submission whose update mutation succeeds with the
    server-confirmed [result], the handler returns, the baseline and the
    current values of the form are [result] (so the form is not dirty and
    the name field shows the name of [result]), and exactly one toast is
    added, a success toast. *)
Theorem C1_submit_succeeds (application : JSObject) (server : JSObject → Outcome JSObject)
    (values : JSObject) (w : World) (result : JSObject) :
  server (applicationInput application values) = Returned result →
  let r := onSubmit application server values w in
  r.1 = Returned tt
  ∧ initialValues r.2 = result
  ∧ OAuth.values r.2 = result
  ∧ dirty r.2 = false
  ∧ name_field (OAuthApplicationSettings r.2) = get result "name"
  ∧ toasts r.2 = (toasts w ++ [updated_toast result])%list
  ∧ raised SUCCESS (toasts r.2) = S (raised SUCCESS (toasts w))
  ∧ raised ERROR (toasts r.2) = raised ERROR (toasts w).
Proof.
  intros Hs r. subst r. rewrite (onSubmit_resolved _ _ _ _ _ Hs). simpl.
  repeat split.
  - apply dirty_reset. reflexivity.
  - rewrite raised_app. simpl. lia.
  - rewrite raised_app. simpl. lia.
Qed.

Lemma C1_submit_succeeds_witness :
  dirty (onSubmit app accepting (OAuth.values edited) edited).2 = false
  ∧ name_field (OAuthApplicationSettings (onSubmit app accepting (OAuth.values edited) edited).2)
    = VStr "New Name".
Proof.
  destruct (C1_submit_succeeds app accepting (OAuth.values edited) edited
              (applicationInput app (OAuth.values edited) ∪ app) eq_refl)
    as (_ & _ & _ & Hd & Hn & _).
  split; [exact Hd |]. rewrite Hn. vm_compute. reflexivity.
Defined.

(** C2: for every submission of a dirty form whose update mutation
    throws, the handler itself returns (nothing is thrown out of it), the
    baseline, the current values and the name field are unchanged, the
    form is still dirty, and exactly one toast is added, an error toast. *)
Theorem C2_submit_fails (application : JSObject) (server : JSObject → Outcome JSObject)
    (values : JSObject) (w : World) (e : Exn) :
  server (applicationInput application values) = Thrown e →
  dirty w = true →
  let r := onSubmit application server values w in
  r.1 = Returned tt
  ∧ initialValues r.2 = initialValues w
  ∧ OAuth.values r.2 = OAuth.values w
  ∧ name_field (OAuthApplicationSettings r.2) = name_field (OAuthApplicationSettings w)
  ∧ dirty r.2 = true
  ∧ toasts r.2 = (toasts w ++ [error_toast e])%list
  ∧ raised ERROR (toasts r.2) = S (raised ERROR (toasts w))
  ∧ raised SUCCESS (toasts r.2) = raised SUCCESS (toasts w).
Proof.
  intros Hs Hd r. subst r. rewrite (onSubmit_rejected _ _ _ _ _ Hs). simpl.
  repeat split.
  - exact Hd.
  - rewrite raised_app. simpl. lia.
  - rewrite raised_app. simpl. lia.
Qed.

Lemma C2_submit_fails_witness :
  (onSubmit app failing (OAuth.values edited) edited).1 = Returned tt
  ∧ dirty (onSubmit app failing (OAuth.values edited) edited).2 = true
  ∧ raised ERROR (toasts (onSubmit app failing (OAuth.values edited) edited).2) = 1.
Proof.
  destruct (C2_submit_fails app failing (OAuth.values edited) edited (Error "Forbidden"))
    as (Hr & _ & _ & _ & Hd & _ & He & _); [reflexivity | vm_compute; reflexivity |].
  split; [exact Hr |]. split; [exact Hd |]. exact He.
Defined.

(** C4: in every state the settings form can reach, the unsaved-changes
    guard is active if and only if the form is dirty and the delete
    confirmation is closed. *)
Theorem C4_guard_active (validate : JSObject → JSObject) (application : JSObject)
    (c : Cache) (w : World) :
  reachable validate application c w →
  guard_active (OAuthApplicationSettings w) = true
  ↔ dirty w = true ∧ showDeleteModal w = false.
Proof.
  intros _. unfold OAuthApplicationSettings, WarnIfUnsavedChanges. simpl.
  rewrite andb_true_iff, negb_true_iff. reflexivity.
Qed.

Lemma C4_guard_active_witness :
  guard_active (OAuthApplicationSettings edited) = true
  ∧ guard_active (OAuthApplicationSettings (step valid app OpenDelete edited)) = false.
Proof.
  split.
  - apply (C4_guard_active valid app store edited).
    + apply reachable_step, reachable_ready.
    + split; vm_compute; reflexivity.
  - apply not_true_is_false. intros Hg.
    apply (C4_guard_active valid app store (step valid app OpenDelete edited)) in Hg
      as [_ Hm]; [discriminate Hm |].
    apply reachable_step, reachable_step, reachable_ready.
Defined.

End Submission.

(** ** The delete flow *)

Section CacheUpdate.
Import JS React Effect Toasts Apollo OAuth.

Lemma evict_lookup id c : data (evict (Some id) c) !! id = None.
Proof. simpl. apply lookup_delete_eq. Qed.

(** Collecting garbage only removes entities. *)
Lemma gc_absent c id : data c !! id = None → data (gc c) !! id = None.
Proof. intros H. unfold gc. simpl. apply map_lookup_filter_None. left. exact H. Qed.

(** Deleting a field of one entity brings no entity back. *)
Lemma modify_DELETE_absent owner fieldName c id :
  data c !! id = None → data (modify_DELETE owner fieldName c) !! id = None.
Proof.
  intros H. unfold modify_DELETE.
  destruct owner as [dataId |]; [| exact H].
  destruct (data c !! dataId) as [storeObject |] eqn:Ho; [| exact H].
  destruct (decide _); [exact H |].
  destruct (decide _); simpl.
  - rewrite lookup_delete. destruct (decide (dataId = id)); done.
  - rewrite lookup_insert_ne; [exact H |]. intros ->. congruence.
Qed.

(** After the deletion no stored variant of the field is left in the
    entity, so nothing is listed in it. *)
Lemma modify_DELETE_unlisted dataId fieldName c x :
  ¬ listed_in (modify_DELETE (Some dataId) fieldName c) dataId fieldName x.
Proof.
  intros (o & key & v & Ho & Hk & Hf & _). unfold modify_DELETE in Ho.
  destruct (data c !! dataId) as [storeObject |] eqn:Hs; [| congruence].
  destruct (decide (map_Forall _ storeObject)) as [Hall | _].
  - assert (o = storeObject) as -> by congruence.
    apply (Hall key v Hk). exact Hf.
  - destruct (decide _); simpl in Ho.
    + rewrite lookup_delete_eq in Ho. discriminate.
    + rewrite lookup_insert_eq in Ho. injection Ho as <-.
      apply map_lookup_filter_Some in Hk as [_ Hne]. apply Hne. exact Hf.
Qed.

(** What [update] leaves in the cache. *)
Lemma update_evicts application d c appId :
  identify application = Some appId →
  data (update application d c) !! appId = None.
Proof.
  intros Hid. unfold update. rewrite Hid.
  apply modify_DELETE_absent, gc_absent, evict_lookup.
Qed.

Lemma update_unlists application d c accId x :
  identify (account d) = Some accId →
  ¬ listed_in (update application d c) accId "oAuthApplications" x.
Proof. intros Hid. unfold update. rewrite Hid. apply modify_DELETE_unlisted. Qed.

End CacheUpdate.

Section DeleteFlow.
Import JS React Effect Toasts Apollo OAuth Scenario.

(** One run of [continueHandler], by the answer of the server and the
    outcome of the callback. *)
Lemma continueHandler_rejected application server onDelete w e :
  server (get application "id") = Thrown e →
  continueHandler application server onDelete w
  = (Returned undefined,
     {| initialValues := initialValues w; values := values w;
        showDeleteModal := showDeleteModal w;
        toasts := (toasts w ++ [error_toast e])%list;
        sent := (sent w ++ [("DeleteOAuthApplication", {[ "id" := get application "id" ]})])%list;
        cache := cache w; onDelete_calls := onDelete_calls w |}).
Proof.
  intros Hs. unfold continueHandler, try_catch, deleteApplication, call_onDelete, mbind,
    M_bind, mret, M_ret, await, throw, send, with_cache, addToast, update_world.
  simpl. rewrite Hs. reflexivity.
Qed.

Lemma continueHandler_deleted application server onDelete w d :
  server (get application "id") = Returned d →
  onDelete application = None →
  continueHandler application server onDelete w
  = (Returned CONFIRMATION_MODAL_TERMINATE,
     {| initialValues := initialValues w; values := values w;
        showDeleteModal := showDeleteModal w;
        toasts := (toasts w ++ [deleted_toast application])%list;
        sent := (sent w ++ [("DeleteOAuthApplication", {[ "id" := get application "id" ]})])%list;
        cache := update application d (cache w);
        onDelete_calls := (onDelete_calls w ++ [application])%list |}).
Proof.
  intros Hs Hc. unfold continueHandler, try_catch, deleteApplication, call_onDelete, mbind,
    M_bind, mret, M_ret, await, throw, send, with_cache, addToast, update_world.
  simpl. rewrite Hs, Hc. reflexivity.
Qed.

Lemma continueHandler_callback_thrown application server onDelete w d e :
  server (get application "id") = Returned d →
  onDelete application = Some e →
  continueHandler application server onDelete w
  = (Returned undefined,
     {| initialValues := initialValues w; values := values w;
        showDeleteModal := showDeleteModal w;
        toasts := (toasts w ++ [error_toast e])%list;
        sent := (sent w ++ [("DeleteOAuthApplication", {[ "id" := get application "id" ]})])%list;
        cache := update application d (cache w);
        onDelete_calls := (onDelete_calls w ++ [application])%list |}).
Proof.
  intros Hs Hc. unfold continueHandler, try_catch, deleteApplication, call_onDelete, mbind,
    M_bind, mret, M_ret, await, throw, send, with_cache, addToast, update_world.
  simpl. rewrite Hs, Hc. reflexivity.
Qed.

(** C3, as stated, fails when the post-delete callback throws: the delete
    mutation succeeds and the callback is invoked once, but its error is
    caught by the same [catch] block, so no success toast is raised (an
    error toast is) and the handler does not return
    [CONFIRMATION_MODAL_TERMINATE]. *)
Lemma C3_no_success_toast_when_callback_throws :
  let r := continueHandler app deleting navigation_fails confirming in
  returns (deleting (get app "id")) = true
  ∧ onDelete_calls r.2 = [app]
  ∧ raised SUCCESS (toasts r.2) = 0
  ∧ raised ERROR (toasts r.2) = 1
  ∧ r.1 = Returned undefined.
Proof.
  intros r. subst r.
  rewrite (continueHandler_callback_thrown app deleting navigation_fails confirming
             {| deleted_id := get app "id"; account := acme |} (Error "Route cancelled"))
    by reflexivity.
  repeat split.
Qed.

(** C3, amended: for every run of the delete confirmation flow: on a
    successful delete mutation, no entity is left in the cache under the
    cache id of the deleted application, nothing is listed any more in the
    [oAuthApplications] field of the parent account, and the post-delete
    callback is invoked exactly once, with the application; if that
    callback returns, exactly one toast is added, a success toast, and the
    handler returns [CONFIRMATION_MODAL_TERMINATE]; if it throws, exactly
    one toast is added, an error toast. On a failed delete mutation, the
    handler returns without [CONFIRMATION_MODAL_TERMINATE] and the dialog
    stays open, the callback is not invoked, the cache is untouched, and
    exactly one toast is added, an error toast. *)
Theorem C3_delete_flow (application : JSObject) (server : JSValue → Outcome Deleted)
    (onDelete : JSObject → option Exn) (w : World) :
  let r := continueHandler application server onDelete w in
  (∀ d, server (get application "id") = Returned d →
     (∀ appId, identify application = Some appId →
        data (cache r.2) !! appId = None)
     ∧ (∀ accId x, identify (account d) = Some accId →
        ¬ listed_in (cache r.2) accId "oAuthApplications" x)
     ∧ onDelete_calls r.2 = (onDelete_calls w ++ [application])%list
     ∧ (onDelete application = None →
        r.1 = Returned CONFIRMATION_MODAL_TERMINATE
        ∧ toasts r.2 = (toasts w ++ [deleted_toast application])%list
        ∧ raised SUCCESS (toasts r.2) = S (raised SUCCESS (toasts w))
        ∧ raised ERROR (toasts r.2) = raised ERROR (toasts w))
     ∧ (∀ e, onDelete application = Some e →
        r.1 = Returned undefined
        ∧ toasts r.2 = (toasts w ++ [error_toast e])%list
        ∧ raised SUCCESS (toasts r.2) = raised SUCCESS (toasts w)
        ∧ raised ERROR (toasts r.2) = S (raised ERROR (toasts w))))
  ∧ (∀ e, server (get application "id") = Thrown e →
     r.1 = Returned undefined
     ∧ showDeleteModal r.2 = showDeleteModal w
     ∧ onDelete_calls r.2 = onDelete_calls w
     ∧ cache r.2 = cache w
     ∧ toasts r.2 = (toasts w ++ [error_toast e])%list
     ∧ raised ERROR (toasts r.2) = S (raised ERROR (toasts w))
     ∧ raised SUCCESS (toasts r.2) = raised SUCCESS (toasts w)).
Proof.
  intros r. subst r. split.
  - intros d Hs. destruct (onDelete application) as [e |] eqn:Hc.
    + rewrite (continueHandler_callback_thrown _ _ _ _ _ _ Hs Hc). simpl.
      split; [intros appId Hid; by apply update_evicts |].
      split; [intros accId x Hid; by apply update_unlists |].
      split; [reflexivity |].
      split; [discriminate |].
      intros e' [= <-]. rewrite !raised_app. simpl. repeat split; lia.
    + rewrite (continueHandler_deleted _ _ _ _ _ Hs Hc). simpl.
      split; [intros appId Hid; by apply update_evicts |].
      split; [intros accId x Hid; by apply update_unlists |].
      split; [reflexivity |].
      split; [| discriminate].
      intros _. rewrite !raised_app. simpl. repeat split; lia.
  - intros e Hs. rewrite (continueHandler_rejected _ _ _ _ _ Hs). simpl.
    rewrite !raised_app. simpl. repeat split; lia.
Qed.

Lemma C3_delete_flow_witness :
  (data (cache (continueHandler app deleting navigates confirming).2)
     !! "Application:app-1" = None
   ∧ ¬ listed_in (cache (continueHandler app deleting navigates confirming).2)
         "Organization:acme" "oAuthApplications" "Application:app-1"
   ∧ raised SUCCESS (toasts (continueHandler app deleting navigates confirming).2) = 1)
  ∧ (showDeleteModal (continueHandler app not_deleting navigates confirming).2 = true
     ∧ onDelete_calls (continueHandler app not_deleting navigates confirming).2 = []
     ∧ raised ERROR (toasts (continueHandler app not_deleting navigates confirming).2) = 1).
Proof.
  split.
  - destruct (proj1 (C3_delete_flow app deleting navigates confirming)
                {| deleted_id := get app "id"; account := acme |} eq_refl)
      as (He & Hl & _ & Hok & _).
    split; [apply He; reflexivity |].
    split; [apply Hl; reflexivity |].
    destruct (Hok eq_refl) as (_ & _ & Hs & _). exact Hs.
  - destruct (proj2 (C3_delete_flow app not_deleting navigates confirming)
                (Error "Network error") eq_refl)
      as (_ & Hm & Hc & _ & _ & He & _).
    split; [exact Hm |]. split; [exact Hc |]. exact He.
Defined.

End DeleteFlow.

(** * Further properties of the code *)

(** ** The field decorator, in full *)

Section FieldDecoratorMore.
Import JS React FieldDecorator Examples Readers.

(** X1: the label carries the "(optional)" qualifier exactly when a label
    is given, the optional label is not hidden, [required] is strictly
    [false] and the input is not a checkbox. *)
Theorem X1_optional_qualifier_iff (p : Props) :
  has_optional_qualifier (StyledInputField p)
  = truthy (label p) && negb (truthy (hideOptionalLabel p))
    && strict_eq (required p) (VBool false) && negb (isCheckbox p).
Proof.
  unfold has_optional_qualifier.
  destruct (truthy (label p)) eqn:Hl.
  - rewrite decoration_of_label by done.
    rewrite (proj1 (qualifiers_of_decoration (defaultProps p))).
    change (displayOptionalLabel (defaultProps p)) with (displayOptionalLabel p).
    change (isCheckbox (defaultProps p)) with (isCheckbox p).
    unfold displayOptionalLabel. destruct (truthy (hideOptionalLabel p)); reflexivity.
  - rewrite decoration_of_no_label by done. reflexivity.
Qed.

(** X2: the label carries the required marker exactly when a label is
    given, the required-label mode is on and [required] is strictly
    [true]; a checkbox makes no difference here. *)
Theorem X2_required_marker_iff (p : Props) :
  has_required_marker (StyledInputField p)
  = truthy (label p) && truthy (useRequiredLabel p)
    && strict_eq (required p) (VBool true).
Proof.
  unfold has_required_marker.
  destruct (truthy (label p)) eqn:Hl.
  - rewrite decoration_of_label by done.
    rewrite (proj2 (qualifiers_of_decoration (defaultProps p))).
    change (displayOptionalLabel (defaultProps p)) with (displayOptionalLabel p).
    change (displayRequiredLabel (defaultProps p)) with (displayRequiredLabel p).
    unfold displayOptionalLabel, displayRequiredLabel.
    destruct (truthy (useRequiredLabel p)); simpl; [| apply andb_false_r].
    destruct (truthy (hideOptionalLabel p)); simpl; [reflexivity |].
    destruct (required p) as [| | [|] | | | |];
      try reflexivity; simpl; by rewrite ?andb_false_r.
  - rewrite decoration_of_no_label by done. reflexivity.
Qed.

Lemma errorSection_block q :
  is_error_block (errorSection q)
  = truthy (error q) && bool_decide (typeof (error q) = "string").
Proof.
  unfold errorSection, jsx_and, js_and.
  destruct (truthy (error q)) eqn:He.
  - destruct (error q); reflexivity.
  - rewrite He. reflexivity.
Qed.

(** X3: the error block is rendered exactly for an error that is a
    non-empty string, the hint block exactly for a truthy hint with a falsy
    error, and never both. *)
Theorem X3_error_and_hint_blocks (p : Props) :
  is_error_block (rendered_error (StyledInputField p))
  = truthy (error p) && bool_decide (typeof (error p) = "string")
  ∧ is_hint_block (rendered_hint (StyledInputField p))
    = truthy (hint p) && negb (truthy (error p))
  ∧ is_error_block (rendered_error (StyledInputField p))
    && is_hint_block (rendered_hint (StyledInputField p)) = false.
Proof.
  rewrite rendered_error_eq, rendered_hint_eq, errorSection_block, hintSection_block.
  change (error (defaultProps p)) with (error p).
  change (hint (defaultProps p)) with (hint p).
  repeat split.
  destruct (truthy (error p)); simpl; [by rewrite !andb_false_r | reflexivity].
Qed.

(** X4: a falsy error or hint is handed to React as it is, so that a
    number ([0] or [NaN]) is painted as text below the field, while
    [undefined], [null], [false] and the empty string paint nothing. *)
Theorem X4_falsy_values_are_children (p : Props) :
  (truthy (error p) = false →
     rendered_error (StyledInputField p) = NValue (error p)
     ∧ (paints (rendered_error (StyledInputField p)) = true
        ↔ typeof (error p) = "number"))
  ∧ (truthy (hint p) = false →
     rendered_hint (StyledInputField p) = NValue (hint p)
     ∧ (paints (rendered_hint (StyledInputField p)) = true
        ↔ typeof (hint p) = "number")).
Proof.
  rewrite rendered_error_eq, rendered_hint_eq. split.
  - intros He. unfold errorSection, jsx_and, js_and.
    change (error (defaultProps p)) with (error p). rewrite He, He.
    split; [reflexivity |].
    destruct (error p) as [| | [|] | n | | s | r]; simpl in *; try done.
    apply negb_false_iff, bool_decide_eq_true in He. subst s. done.
  - intros Hh. unfold hintSection, jsx_and, js_and.
    change (hint (defaultProps p)) with (hint p). rewrite Hh, Hh.
    split; [reflexivity |].
    destruct (hint p) as [| | [|] | n | | s | r]; simpl in *; try done.
    apply negb_false_iff, bool_decide_eq_true in Hh. subst s. done.
Qed.

Lemma X4_falsy_values_are_children_witness :
  paints (rendered_error (StyledInputField (field_with (VNum 0) VUndefined))) = true
  ∧ rendered_hint (StyledInputField (field_with VUndefined (VNum 0))) = NValue (VNum 0).
Proof.
  split.
  - apply (proj1 (X4_falsy_values_are_children (field_with (VNum 0) VUndefined)));
      reflexivity.
  - apply (proj2 (X4_falsy_values_are_children (field_with VUndefined (VNum 0))));
      reflexivity.
Defined.

(** X5: a render-prop child is called with the input type and the
    [success], [disabled] and [required] props as given, and with an error
    flag that is [true] for every truthy error, text included, and
    [undefined] otherwise: never [false], never the error text. *)
Theorem X5_builder_attributes (p : Props) (f : ComputedProps → Node) :
  children p = Builder f →
  ∃ cp, rendered_child (StyledInputField p) = f cp
    ∧ cp_type cp = inputType p
    ∧ cp_success cp = success p
    ∧ cp_disabled cp = disabled p
    ∧ cp_required cp = required p
    ∧ cp_error cp = (if truthy (error p) then VBool true else VUndefined).
Proof.
  intros Hf. exists (computedProps (defaultProps p)).
  rewrite rendered_child_eq. unfold childSection. simpl children. rewrite Hf.
  repeat split. unfold computedProps, cp_error, Boolean, js_or.
  change (error (defaultProps p)) with (error p).
  destruct (truthy (error p)); reflexivity.
Qed.

Lemma X5_builder_attributes_witness :
  ∃ cp, rendered_child (StyledInputField (field_with (VStr "Invalid email") VUndefined))
        = input_builder cp
    ∧ cp_error cp = VBool true.
Proof.
  destruct (X5_builder_attributes (field_with (VStr "Invalid email") VUndefined)
              input_builder eq_refl) as (cp & Hc & _ & _ & _ & _ & He).
  exists cp. split; [exact Hc | exact He].
Defined.

Lemma labelSection_attrs q :
  truthy (label q) = true →
  attrs_of (labelSection q) !! "htmlFor"
  = match default ∅ (labelProps q) !! "htmlFor" with
    | Some v => Some v
    | None => Some (htmlFor' q)
    end.
Proof.
  intros Hl. unfold labelSection, jsx_and. rewrite Hl. simpl attrs_of.
  unfold with_spread, spread. rewrite lookup_union.
  destruct (default ∅ (labelProps q) !! "htmlFor"); reflexivity.
Qed.

(** X6: the [htmlFor] of the rendered label is the [id] the render-prop
    child is called with, unless [labelProps] carries an [htmlFor] of its
    own, which then wins over the computed one. *)
Theorem X6_label_points_to_child (p : Props) (f : ComputedProps → Node) :
  truthy (label p) = true →
  children p = Builder f →
  ∃ cp, rendered_child (StyledInputField p) = f cp
    ∧ (default ∅ (labelProps p) !! "htmlFor" = None →
       label_attrs (StyledInputField p) !! "htmlFor" = Some (cp_id cp))
    ∧ (∀ v, default ∅ (labelProps p) !! "htmlFor" = Some v →
       label_attrs (StyledInputField p) !! "htmlFor" = Some v).
Proof.
  intros Hl Hf. exists (computedProps (defaultProps p)).
  unfold label_attrs. rewrite rendered_child_eq, rendered_label_eq.
  rewrite (labelSection_attrs (defaultProps p)) by exact Hl.
  change (labelProps (defaultProps p)) with (labelProps p).
  split; [unfold childSection; simpl children; rewrite Hf; reflexivity |].
  split; [intros -> | intros v ->]; reflexivity.
Qed.

Lemma X6_label_points_to_child_witness :
  label_attrs (StyledInputField (field_with VUndefined VUndefined)) !! "htmlFor"
  = Some (VStr "input-email").
Proof.
  destruct (X6_label_points_to_child (field_with VUndefined VUndefined) input_builder
              eq_refl eq_refl) as (cp & Hc & Hid & _).
  rewrite (Hid eq_refl). f_equal.
  change (cp_id cp) with
    (default VUndefined (attrs_of (input_builder cp) !! "id")).
  rewrite <- Hc. reflexivity.
Defined.

Lemma private_icon_is_icon v :
  is_private_icon (jsx_and v PrivateIconWithSpace) = truthy v.
Proof. unfold jsx_and. destruct (truthy v); reflexivity. Qed.

Lemma labelContent_not_icon q : is_private_icon (labelContent q) = false.
Proof. unfold labelContent, jsx_and. destruct (truthy (label q)); reflexivity. Qed.

(** X7: the lock icon follows the label text exactly when a label is given
    and [isPrivate] is truthy, whichever of the optional qualifier, the
    required marker or the plain label is rendered. *)
Theorem X7_private_icon_iff (p : Props) :
  has_private_icon (StyledInputField p) = truthy (label p) && truthy (isPrivate p).
Proof.
  unfold has_private_icon.
  destruct (truthy (label p)) eqn:Hl.
  - rewrite decoration_of_label by done. unfold labelDecoration.
    pose proof (private_icon_is_icon (isPrivate (defaultProps p))) as Hi.
    pose proof (labelContent_not_icon (defaultProps p)) as Hc.
    change (isPrivate (defaultProps p)) with (isPrivate p) in *.
    destruct (displayOptionalLabel _ && _); [| destruct (displayRequiredLabel _)];
      simpl; rewrite ?Hi, ?Hc, ?orb_false_r; try reflexivity.
    clear Hc. destruct (labelContent (defaultProps p)); reflexivity.
  - rewrite decoration_of_no_label by done. reflexivity.
Qed.

(** X8: the help affordance is rendered exactly when both a label and a
    help text are given, and it then carries that help text; a help text
    without a label is dropped. *)
Theorem X8_help_affordance (p : Props) :
  is_elem "StyledTooltip" (help_slot (StyledInputField p))
  = truthy (label p) && truthy (helpText p)
  ∧ (truthy (label p) = true → truthy (helpText p) = true →
     attrs_of (help_slot (StyledInputField p)) !! "content" = Some (helpText p)).
Proof.
  unfold help_slot. rewrite rendered_label_eq. unfold labelSection, jsx_and.
  change (label (defaultProps p)) with (label p).
  change (helpText (defaultProps p)) with (helpText p).
  destruct (truthy (label p)); simpl.
  - destruct (truthy (helpText p)); simpl; split; try reflexivity; done.
  - split; [reflexivity | done].
Qed.

Lemma X8_help_affordance_witness :
  attrs_of (help_slot (StyledInputField
     {| children := Builder input_builder; label := VStr "Email"; htmlFor := VUndefined;
        name := VStr "email"; error := VUndefined; hint := VUndefined;
        success := VUndefined; disabled := VUndefined; required := VUndefined;
        inputType := VUndefined; labelFontSize := VUndefined;
        labelFontWeight := VUndefined; labelColor := VUndefined; labelProps := None;
        hideOptionalLabel := VUndefined; useRequiredLabel := VUndefined;
        isPrivate := VUndefined; helpText := VStr "Used for receipts"; props := ∅ |}))
    !! "content" = Some (VStr "Used for receipts").
Proof.
  apply (proj2 (X8_help_affordance
    {| children := Builder input_builder; label := VStr "Email"; htmlFor := VUndefined;
       name := VStr "email"; error := VUndefined; hint := VUndefined;
       success := VUndefined; disabled := VUndefined; required := VUndefined;
       inputType := VUndefined; labelFontSize := VUndefined;
       labelFontWeight := VUndefined; labelColor := VUndefined; labelProps := None;
       hideOptionalLabel := VUndefined; useRequiredLabel := VUndefined;
       isPrivate := VUndefined; helpText := VStr "Used for receipts"; props := ∅ |}));
    reflexivity.
Defined.

End FieldDecoratorMore.

(** ** The reveal button *)

Section RevealButton.
Import JS React OAuth Readers.

(** X9: after [n] presses the button of the client secret reads "Hide"
    when [n] is odd and "Show" when [n] is even; while it reads "Show" the
    slot of the secret paints nothing; and two more presses give the very
    same render. *)
Theorem X9_reveal_button (secret : JSValue) (n : nat) :
  button_message (ObfuscatedClientSecret secret (show_after n))
  = Some (VStr (if Nat.odd n then "Hide" else "Show"))
  ∧ (Nat.odd n = false →
     paints (secret_slot (ObfuscatedClientSecret secret (show_after n))) = false)
  ∧ ObfuscatedClientSecret secret (show_after (S (S n)))
    = ObfuscatedClientSecret secret (show_after n).
Proof.
  rewrite !show_after_odd. split; [| split].
  - destruct (Nat.odd n); reflexivity.
  - intros ->. reflexivity.
  - rewrite !Nat.odd_succ, <- Nat.negb_odd, Nat.odd_succ, Nat.negb_even. reflexivity.
Qed.

End RevealButton.

(** ** The handlers of the screen, whatever the server answers *)

Section Handlers.
Import JS React Effect Toasts Apollo OAuth Scenario Readers.

(** The two ways [onSubmit] can go. *)
Lemma onSubmit_cases application (server : JSObject → Outcome JSObject) values w :
  let r := onSubmit application server values w in
  let request := ("UpdateOAuthApplication", applicationInput application values) in
  (∃ result, server (applicationInput application values) = Returned result
     ∧ r = (Returned tt,
            {| initialValues := result; values := result;
               showDeleteModal := showDeleteModal w;
               toasts := (toasts w ++ [updated_toast result])%list;
               sent := (sent w ++ [request])%list;
               cache := cache w; onDelete_calls := onDelete_calls w |}))
  ∨ (∃ e, server (applicationInput application values) = Thrown e
     ∧ r = (Returned tt,
            {| initialValues := initialValues w; values := OAuth.values w;
               showDeleteModal := showDeleteModal w;
               toasts := (toasts w ++ [error_toast e])%list;
               sent := (sent w ++ [request])%list;
               cache := cache w; onDelete_calls := onDelete_calls w |})).
Proof.
  intros r request. subst r request.
  destruct (server (applicationInput application values)) as [result | e] eqn:Hs.
  - left. exists result. split; [reflexivity |]. by apply onSubmit_resolved.
  - right. exists e. split; [reflexivity |]. by apply onSubmit_rejected.
Qed.


(** The three ways [continueHandler] can go. *)
Lemma continueHandler_cases application server onDelete w :
  let r := continueHandler application server onDelete w in
  let request := ("DeleteOAuthApplication", {[ "id" := get application "id" ]} : JSObject) in
  (∃ e, server (get application "id") = Thrown e
        ∧ r = (Returned undefined,
               {| initialValues := initialValues w; values := values w;
                  showDeleteModal := showDeleteModal w;
                  toasts := (toasts w ++ [error_toast e])%list;
                  sent := (sent w ++ [request])%list;
                  cache := cache w; onDelete_calls := onDelete_calls w |}))
  ∨ (∃ d, server (get application "id") = Returned d ∧ onDelete application = None
          ∧ r = (Returned CONFIRMATION_MODAL_TERMINATE,
                 {| initialValues := initialValues w; values := values w;
                    showDeleteModal := showDeleteModal w;
                    toasts := (toasts w ++ [deleted_toast application])%list;
                    sent := (sent w ++ [request])%list;
                    cache := update application d (cache w);
                    onDelete_calls := (onDelete_calls w ++ [application])%list |}))
  ∨ (∃ d e, server (get application "id") = Returned d ∧ onDelete application = Some e
            ∧ r = (Returned undefined,
                   {| initialValues := initialValues w; values := values w;
                      showDeleteModal := showDeleteModal w;
                      toasts := (toasts w ++ [error_toast e])%list;
                      sent := (sent w ++ [request])%list;
                      cache := update application d (cache w);
                      onDelete_calls := (onDelete_calls w ++ [application])%list |})).
Proof.
  intros r request. subst r request.
  destruct (server (get application "id")) as [d | e] eqn:Hs.
  - destruct (onDelete application) as [e |] eqn:Hc.
    + right; right. exists d, e. repeat split.
      apply continueHandler_callback_thrown; done.
    + right; left. exists d. repeat split. apply continueHandler_deleted; done.
  - left. exists e. split; [reflexivity |]. apply continueHandler_rejected; done.
Qed.

(** X11: [continueHandler] never throws; it returns
    [CONFIRMATION_MODAL_TERMINATE] exactly when the delete mutation
    succeeded and the [onDelete] callback returned, and [undefined]
    otherwise. *)
Theorem X11_continueHandler_result (application : JSObject)
    (server : JSValue → Outcome Deleted) (onDelete : JSObject → option Exn) (w : World) :
  ∃ res, (continueHandler application server onDelete w).1 = Returned res
    ∧ (res = CONFIRMATION_MODAL_TERMINATE
       ↔ returns (server (get application "id")) = true ∧ onDelete application = None).
Proof.
  destruct (continueHandler_cases application server onDelete w)
    as [(e & Hs & ->) | [(d & Hs & Hc & ->) | (d & e & Hs & Hc & ->)]];
    simpl; eexists; (split; [reflexivity |]); rewrite Hs; simpl.
  - split; [discriminate | intros [? _]; discriminate].
  - split; done.
  - split; [discriminate | intros [_ ?]; congruence].
Qed.

(** X12: whatever happens, [continueHandler] sends exactly one delete
    mutation, whose only variable is the [id] of the application, adds
    exactly one toast and leaves the form untouched; it never changes the
    flag that keeps the dialog rendered, not even after a successful
    delete. *)
Theorem X12_continueHandler_frame (application : JSObject)
    (server : JSValue → Outcome Deleted) (onDelete : JSObject → option Exn) (w : World) :
  let r := continueHandler application server onDelete w in
  sent r.2 = (sent w ++ [("DeleteOAuthApplication", {[ "id" := get application "id" ]})])%list
  ∧ length (toasts r.2) = S (length (toasts w))
  ∧ initialValues r.2 = initialValues w
  ∧ values r.2 = values w
  ∧ showDeleteModal r.2 = showDeleteModal w.
Proof.
  intros r. subst r.
  destruct (continueHandler_cases application server onDelete w)
    as [(e & Hs & ->) | [(d & Hs & Hc & ->) | (d & e & Hs & Hc & ->)]];
    simpl; rewrite !length_app; simpl; repeat split; lia.
Qed.

End Handlers.

(** ** Invariants of the screen *)

Section ScreenInvariants.
Import JS React Effect Toasts Apollo OAuth Scenario Readers.

Variable validate : JSObject → JSObject.
Variable application : JSObject.
Variable c : Cache.



(** What one event does to the world, case by case. *)
Lemma step_cases ev w :
  let w' := step validate application ev w in
  w' = w
  ∨ (∃ field text, ev = Change field text ∧ w' = (handleChange field text w).2)
  ∨ (∃ server, ev = Submit server ∧ dirty w = true
               ∧ w' = (onSubmit application server (values w) w).2)
  ∨ (∃ b, w' = (setShowDeleteModal b w).2)
  ∨ (∃ server onDelete, ev = ConfirmDelete server onDelete ∧ showDeleteModal w = true
                        ∧ w' = (continueHandler application server onDelete w).2).
Proof.
  destruct ev as [field text | server | | | server onDelete]; simpl.
  - right; left. eauto.
  - destruct (dirty w) eqn:Hd; simpl; [| by left].
    destruct (bool_decide _); [| by left]. right; right; left. eauto.
  - right; right; right; left. eauto.
  - destruct (showDeleteModal w); [| by left]. right; right; right; left. eauto.
  - destruct (showDeleteModal w) eqn:Hm; [| by left]. right; right; right; right. eauto.
Qed.


(** X14: after any sequence of events the baseline of the form is the
    application as loaded, or the answer that the server of one of the
    submissions gave to an update mutation that was sent: edits never
    reach the baseline on their own. *)
Theorem X14_baseline_is_confirmed (events : list Event) :
  let w := run validate application events (ready application c) in
  initialValues w = application
  ∨ ∃ (server : JSObject → Outcome JSObject) (input : JSObject),
      Submit server ∈ events
      ∧ ("UpdateOAuthApplication", input) ∈ sent w
      ∧ server input = Returned (initialValues w).
Proof.
  induction events as [| ev events IH] using rev_ind; [by left |].
  unfold run in *. rewrite foldl_app. simpl in *.
  set (w := foldl (λ w ev, step validate application ev w) (ready application c) events)
    in *.
  assert (Hgrow : ∀ w', initialValues w' = initialValues w →
                        (∃ l, sent w' = (sent w ++ l)%list) →
            initialValues w' = application
            ∨ ∃ (server : JSObject → Outcome JSObject) (input : JSObject),
                Submit server ∈ (events ++ [ev])%list
                ∧ ("UpdateOAuthApplication", input) ∈ sent w'
                ∧ server input = Returned (initialValues w')).
  { intros w' Hi [l Hl]. rewrite Hi, Hl.
    destruct IH as [IH | (s & i & Hev & Hin & Hs)]; [by left | right].
    exists s, i. repeat split; [| | exact Hs]; apply elem_of_app; by left. }
  destruct (step_cases ev w)
    as [-> | [(f & t & _ & ->) | [(s & -> & _ & ->) | [(b & ->) | (s & o & _ & _ & ->)]]]].
  - apply Hgrow; [reflexivity |]. exists []. by rewrite app_nil_r.
  - apply Hgrow; [reflexivity |]. exists []. simpl. by rewrite app_nil_r.
  - destruct (onSubmit_cases application s (values w) w)
      as [(result & Hs & ->) | (e & Hs & ->)].
    + simpl. right. exists s, (applicationInput application (values w)).
      repeat split; [| | exact Hs];
        apply elem_of_app; right; by apply list_elem_of_singleton.
    + apply Hgrow; simpl; eauto.
  - apply Hgrow; [reflexivity |]. exists []. simpl. by rewrite app_nil_r.
  - destruct (continueHandler_cases application s o w)
      as [(e & Hs & ->) | [(d & Hs & Hc & ->) | (d & e & Hs & Hc & ->)]];
      apply Hgrow; simpl; eauto.
Qed.


End ScreenInvariants.

Section ScreenWitnesses.
Import JS React Effect Toasts Apollo OAuth Scenario Readers.



End ScreenWitnesses.

(** ** Editing and submitting *)

Section EditAndSubmit.
Import JS React Effect Toasts Apollo OAuth Scenario Readers.

(** X16: once a submission has succeeded, pressing the submit button
    again without an edit in between does nothing: the button is disabled
    and no second request is sent, whatever the server would answer. *)
Theorem X16_no_second_request (validate : JSObject → JSObject) (application : JSObject)
    (s1 s2 : JSObject → Outcome JSObject) (w : World) :
  dirty w = true →
  validate (values w) = ∅ →
  returns (s1 (applicationInput application (values w))) = true →
  let w1 := step validate application (Submit s1) w in
  submit_disabled (OAuthApplicationSettings w1) = true
  ∧ step validate application (Submit s2) w1 = w1
  ∧ length (sent w1) = S (length (sent w)).
Proof.
  intros Hd Hv Hs w1.
  destruct (s1 (applicationInput application (values w))) as [result | e] eqn:H1;
    [| discriminate].
  assert (E : w1 = {| initialValues := result; values := result;
                      showDeleteModal := showDeleteModal w;
                      toasts := (toasts w ++ [updated_toast result])%list;
                      sent := (sent w ++ [("UpdateOAuthApplication",
                                 applicationInput application (values w))])%list;
                      cache := cache w; onDelete_calls := onDelete_calls w |}).
  { subst w1. unfold step. rewrite Hd, Hv, bool_decide_eq_true_2 by done.
    simpl andb. cbv iota. rewrite (onSubmit_resolved _ _ _ _ _ H1). reflexivity. }
  rewrite E. clear E w1.
  split; [unfold OAuthApplicationSettings, submit_disabled;
          rewrite dirty_reset; reflexivity |].
  split; [unfold step; rewrite dirty_reset; reflexivity |].
  simpl. rewrite length_app. simpl. lia.
Qed.

Lemma X16_no_second_request_witness :
  step valid app (Submit failing) (step valid app (Submit accepting) edited)
  = step valid app (Submit accepting) edited.
Proof.
  apply (X16_no_second_request valid app accepting failing edited);
    vm_compute; reflexivity.
Defined.

(** X17: on a clean form whose baseline holds the text [t0] in a field,
    typing another text makes the form dirty and arms the guard; typing
    [t0] back restores the very same state, clean and with the guard
    off. *)
Theorem X17_edit_and_revert (validate : JSObject → JSObject) (application : JSObject)
    (field t0 t1 : string) (w : World) :
  values w = initialValues w →
  initialValues w !! field = Some (VStr t0) →
  t1 ≠ t0 →
  showDeleteModal w = false →
  let w1 := step validate application (Change field t1) w in
  dirty w1 = true
  ∧ guard_active (OAuthApplicationSettings w1) = true
  ∧ step validate application (Change field t0) w1 = w
  ∧ guard_active (OAuthApplicationSettings w) = false.
Proof.
  intros Hv Hf Hne Hm w1. subst w1.
  destruct w as [iv v m ts sn ch calls]. simpl in *. subst v m.
  assert (Hdirty : dirty
            {| initialValues := iv; values := <[field := VStr t1]> iv;
               showDeleteModal := false; toasts := ts; sent := sn; cache := ch;
               onDelete_calls := calls |} = true).
  { unfold dirty, isEqual. simpl. apply negb_true_iff, bool_decide_eq_false.
    intros Heq. assert (H : (<[field := VStr t1]> iv) !! field = Some (VStr t0))
      by (rewrite <- Heq; exact Hf).
    rewrite lookup_insert_eq in H. congruence. }
  split; [exact Hdirty |].
  split; [unfold OAuthApplicationSettings, WarnIfUnsavedChanges; simpl; by rewrite Hdirty |].
  split.
  - unfold handleChange, update_world. simpl.
    rewrite insert_insert_eq, insert_id by exact Hf. reflexivity.
  - unfold OAuthApplicationSettings, WarnIfUnsavedChanges, dirty, isEqual. simpl.
    rewrite bool_decide_eq_true_2; done.
Qed.

Lemma X17_edit_and_revert_witness :
  dirty (step valid app (Change "name" "New Name") (ready app store)) = true
  ∧ step valid app (Change "name" "Old Name")
      (step valid app (Change "name" "New Name") (ready app store))
    = ready app store.
Proof.
  destruct (X17_edit_and_revert valid app "name" "Old Name" "New Name" (ready app store))
    as (Hd & _ & Hr & _); [reflexivity | reflexivity | discriminate | reflexivity |].
  split; [exact Hd | exact Hr].
Defined.

End EditAndSubmit.

(** ** What the cache update keeps *)

Section CacheKeeps.
Import JS React Effect Toasts Apollo OAuth Scenario Readers.

Lemma retained_extensive (fuel : nat) (d : gmap string StoreObject) (ids : gset string) : ids ⊆ retained fuel d ids.
Proof.
  revert ids. induction fuel as [| n IH]; intros ids; simpl; [done |].
  etrans; [| apply IH]. set_solver.
Qed.

(** With fuel to spare, what a retained entity refers to is retained. *)
Lemma retained_children (fuel : nat) (d : gmap string StoreObject) (ids : gset string)
    (id x : string) :
  id ∈ ids → x ∈ findChildRefIds d id → x ∈ retained (S fuel) d ids.
Proof.
  intros Hid Hx. simpl. apply retained_extensive.
  apply elem_of_union_r, elem_of_list_to_set, list_elem_of_In, in_flat_map.
  exists id. split; apply list_elem_of_In; [by apply elem_of_elements | exact Hx].
Qed.

Lemma findChildRefIds_field (d : gmap string StoreObject) (id : string)
    (o : StoreObject) (key : string * string) (v : StoreValue) (x : string) :
  d !! id = Some o → o !! key = Some v → x ∈ refs_of v → x ∈ findChildRefIds d id.
Proof.
  intros Ho Hk Hx. unfold findChildRefIds. rewrite Ho.
  apply list_elem_of_In, in_flat_map. exists (key, v).
  split; apply list_elem_of_In; [by apply elem_of_map_to_list | exact Hx].
Qed.

Lemma gc_lookup_retained (c0 : Cache) (id : string) :
  id ∈ retained (size (data c0)) (data c0) (rootIds c0) →
  data (gc c0) !! id = data c0 !! id.
Proof.
  intros Hk. unfold gc. simpl.
  destruct (data c0 !! id) as [o |] eqn:Ho.
  - apply map_lookup_filter_Some. done.
  - apply map_lookup_filter_None. by left.
Qed.

Lemma evict_lookup_other (owner : option string) (c0 : Cache) (id : string) :
  owner ≠ Some id → data (evict owner c0) !! id = data c0 !! id.
Proof.
  intros Hne. destruct owner as [dataId |]; [| reflexivity].
  simpl. apply lookup_delete_ne. congruence.
Qed.

Lemma modify_DELETE_other (owner : option string) fieldName (c0 : Cache) (id : string) :
  owner ≠ Some id → data (modify_DELETE owner fieldName c0) !! id = data c0 !! id.
Proof.
  intros Hne. unfold modify_DELETE.
  destruct owner as [dataId |]; [| reflexivity].
  destruct (data c0 !! dataId); [| reflexivity].
  destruct (decide _); [reflexivity |].
  destruct (decide _); simpl.
  - apply lookup_delete_ne. congruence.
  - apply lookup_insert_ne. congruence.
Qed.

(** [modify] on the owner: the other fields stay, the named one goes. *)
Lemma modify_DELETE_owner (dataId fieldName : string) (c0 : Cache) (o : StoreObject)
    (key : string * string) (v : StoreValue) :
  data c0 !! dataId = Some o → o !! key = Some v → key.1 ≠ fieldName →
  ∃ o' : StoreObject,
    data (modify_DELETE (Some dataId) fieldName c0) !! dataId = Some o'
    ∧ o' !! key = Some v
    ∧ ∀ k, k.1 = fieldName → o' !! k = None.
Proof.
  intros Ho Hk Hne. unfold modify_DELETE. rewrite Ho.
  destruct (decide (map_Forall _ o)) as [Hall | _].
  - exists o. split; [exact Ho |]. split; [exact Hk |].
    intros k Hf. destruct (o !! k) as [x |] eqn:Hx; [| reflexivity].
    exfalso. exact (Hall k x Hx Hf).
  - destruct (decide _) as [Hempty | _].
    + exfalso.
      assert (H : filter (λ kv : string * string * StoreValue, kv.1.1 ≠ fieldName) o
                    !! key = Some v) by (apply map_lookup_filter_Some; done).
      rewrite Hempty, lookup_empty in H. discriminate.
    + simpl. eexists. split; [apply lookup_insert_eq |].
      split; [apply map_lookup_filter_Some; done |].
      intros k Hf. apply map_lookup_filter_None. right. intros x _ Hnf. by apply Hnf.
Qed.

(** X18: the cache update of the delete mutation only removes: every
    entity left in the cache was there before, with at least the fields it
    has now, and the retained roots are the same. *)
Theorem X18_update_only_removes (application : JSObject) (d : Deleted) (c : Cache) :
  rootIds (update application d c) = rootIds c
  ∧ ∀ id (o' : StoreObject), data (update application d c) !! id = Some o' →
      ∃ o : StoreObject, data c !! id = Some o ∧ o' ⊆ o.
Proof.
  split.
  - unfold update, modify_DELETE, gc, evict.
    repeat (case_match; simpl); reflexivity.
  - intros id o' H. unfold update in H.
    set (c1 := evict (identify application) c) in *.
    set (c2 := gc c1) in *.
    assert (H2 : ∃ o : StoreObject, data c2 !! id = Some o ∧ o' ⊆ o).
    { unfold modify_DELETE in H.
      destruct (identify (account d)) as [dataId |]; [| eauto].
      destruct (data c2 !! dataId) as [so |] eqn:Hso; [| eauto].
      destruct (decide (map_Forall _ so)); [eauto |].
      destruct (decide _); simpl in H.
      - apply lookup_delete_Some in H as [_ H]. eauto.
      - destruct (decide (dataId = id)) as [-> | Hne].
        + rewrite lookup_insert_eq in H. injection H as <-.
          exists so. split; [exact Hso | apply map_filter_subseteq].
        + rewrite lookup_insert_ne in H by done. eauto. }
    destruct H2 as (o & H2 & Hsub). exists o. split; [| exact Hsub].
    unfold c2, gc in H2. simpl in H2.
    apply map_lookup_filter_Some in H2 as [H1 _].
    unfold c1, evict in H1. destruct (identify application); [| exact H1].
    simpl in H1. by apply lookup_delete_Some in H1 as [_ H1].
Qed.

(** X19: a retained root of the cache (such as [ROOT_QUERY]) that is
    neither the deleted application nor its account comes out of the
    update unchanged; in particular the references it holds to the
    deleted application are still there. *)
Theorem X19_roots_unchanged (application : JSObject) (d : Deleted) (c : Cache)
    (root : string) :
  root ∈ rootIds c →
  identify application ≠ Some root →
  identify (account d) ≠ Some root →
  data (update application d c) !! root = data c !! root.
Proof.
  intros Hr Ha Hacc. unfold update.
  rewrite modify_DELETE_other by exact Hacc.
  rewrite gc_lookup_retained.
  - by apply evict_lookup_other.
  - apply retained_extensive. by destruct (identify application).
Qed.

Lemma X19_roots_unchanged_witness :
  data (update app {| deleted_id := VStr "app-1"; account := acme |} store) !! "ROOT_QUERY"
  = data store !! "ROOT_QUERY".
Proof.
  apply (X19_roots_unchanged app {| deleted_id := VStr "app-1"; account := acme |}
           store "ROOT_QUERY"); vm_compute; [reflexivity | discriminate | discriminate].
Defined.

(** X20: an account that a retained root refers to keeps every field not
    named [oAuthApplications] through the update, and has no field of that
    name afterwards. *)
Theorem X20_account_keeps_other_fields (application : JSObject) (d : Deleted) (c : Cache)
    (root accId : string) (ro o : StoreObject) (rkey key : string * string)
    (rv v : StoreValue) :
  identify (account d) = Some accId →
  identify application ≠ Some accId →
  identify application ≠ Some root →
  root ∈ rootIds c →
  data c !! root = Some ro → ro !! rkey = Some rv → accId ∈ refs_of rv →
  data c !! accId = Some o → o !! key = Some v → key.1 ≠ "oAuthApplications" →
  ∃ o' : StoreObject,
    data (update application d c) !! accId = Some o'
    ∧ o' !! key = Some v
    ∧ ∀ k, k.1 = "oAuthApplications" → o' !! k = None.
Proof.
  intros Hacc Hne Hner Hroot Hro Hrk Href Ho Hk Hf. unfold update. rewrite Hacc.
  set (c1 := evict (identify application) c).
  assert (H1r : data c1 !! root = Some ro)
    by (unfold c1; rewrite evict_lookup_other; done).
  assert (H1a : data c1 !! accId = Some o)
    by (unfold c1; rewrite evict_lookup_other; done).
  assert (Hroots : rootIds c1 = rootIds c)
    by (unfold c1; destruct (identify application); reflexivity).
  apply (modify_DELETE_owner accId "oAuthApplications" (gc c1) o key v); [| done | done].
  rewrite gc_lookup_retained; [exact H1a |].
  destruct (size (data c1)) as [| n] eqn:Hsize.
  { apply map_size_empty_iff in Hsize. rewrite Hsize, lookup_empty in H1r. discriminate. }
  apply (retained_children n (data c1) (rootIds c1) root accId).
  - by rewrite Hroots.
  - by apply (findChildRefIds_field (data c1) root ro rkey rv).
Qed.

Lemma X20_account_keeps_other_fields_witness :
  ∃ o' : StoreObject,
    data (update app {| deleted_id := VStr "app-1"; account := acme |} store)
      !! "Organization:acme" = Some o'
    ∧ o' !! ("id", EmptyString) = Some (SVal (VStr "acme"))
    ∧ ∀ k, k.1 = "oAuthApplications" → o' !! k = None.
Proof.
  eapply (X20_account_keeps_other_fields app
            {| deleted_id := VStr "app-1"; account := acme |} store
            "ROOT_QUERY" "Organization:acme" _ _ ("account", "{slug:acme}")
            ("id", EmptyString) (SRef "Organization:acme") (SVal (VStr "acme")));
    try (vm_compute; first [reflexivity | discriminate]);
    first [apply list_elem_of_here | apply elem_of_singleton; reflexivity].
Defined.

End CacheKeeps.

Section CacheFrame.
Import JS React Effect Toasts Apollo OAuth Scenario Readers.

(** X21: an entity that a retained root refers to directly, and that is
    neither the deleted application nor its account, comes out of the
    update unchanged. *)
Theorem X21_referenced_entities_unchanged (application : JSObject) (d : Deleted)
    (c : Cache) (root id : string) (ro : StoreObject) (rkey : string * string)
    (rv : StoreValue) :
  root ∈ rootIds c →
  data c !! root = Some ro → ro !! rkey = Some rv → id ∈ refs_of rv →
  identify application ≠ Some root →
  identify application ≠ Some id →
  identify (account d) ≠ Some id →
  data (update application d c) !! id = data c !! id.
Proof.
  intros Hroot Hro Hrk Href Hner Hne Hacc. unfold update.
  rewrite modify_DELETE_other by exact Hacc.
  set (c1 := evict (identify application) c).
  assert (H1r : data c1 !! root = Some ro)
    by (unfold c1; rewrite evict_lookup_other; done).
  assert (Hroots : rootIds c1 = rootIds c)
    by (unfold c1; destruct (identify application); reflexivity).
  rewrite gc_lookup_retained; [by apply evict_lookup_other |].
  destruct (size (data c1)) as [| n] eqn:Hsize.
  { apply map_size_empty_iff in Hsize. rewrite Hsize, lookup_empty in H1r. discriminate. }
  apply (retained_children n (data c1) (rootIds c1) root id).
  - by rewrite Hroots.
  - by apply (findChildRefIds_field (data c1) root ro rkey rv).
Qed.

Lemma X21_referenced_entities_unchanged_witness :
  data (update (<[ "id" := VStr "app-2" ]> app)
          {| deleted_id := VStr "app-2"; account := acme |} store)
    !! "Application:app-1"
  = data store !! "Application:app-1".
Proof.
  eapply (X21_referenced_entities_unchanged (<[ "id" := VStr "app-2" ]> app)
            {| deleted_id := VStr "app-2"; account := acme |} store
            "ROOT_QUERY" "Application:app-1" _ ("application", "{id:app-1}")
            (SRef "Application:app-1"));
    try (vm_compute; first [reflexivity | discriminate]);
    first [apply list_elem_of_here | apply elem_of_singleton; reflexivity].
Defined.

End CacheFrame.

Section DialogAndCache.
Import JS React Effect Toasts Apollo OAuth Scenario Readers.

(** X22: opening the delete dialog suspends the unsaved-changes guard
    without touching the form, and closing it again restores the very same
    state. *)
Theorem X22_open_and_close (validate : JSObject → JSObject) (application : JSObject)
    (w : World) :
  showDeleteModal w = false →
  let w1 := step validate application OpenDelete w in
  guard_active (OAuthApplicationSettings w1) = false
  ∧ modal_rendered (OAuthApplicationSettings w1) = true
  ∧ values w1 = values w
  ∧ dirty w1 = dirty w
  ∧ step validate application CloseDelete w1 = w.
Proof.
  intros Hm w1. subst w1. destruct w as [iv v m ts sn ch calls].
  simpl in Hm. subst m. simpl.
  unfold OAuthApplicationSettings, WarnIfUnsavedChanges. simpl.
  rewrite andb_false_r. repeat split.
Qed.

Lemma X22_open_and_close_witness :
  guard_active (OAuthApplicationSettings (step valid app OpenDelete edited)) = false
  ∧ step valid app CloseDelete (step valid app OpenDelete edited) = edited.
Proof.
  destruct (X22_open_and_close valid app edited) as (Hg & _ & _ & _ & Hc);
    [reflexivity |].
  split; [exact Hg | exact Hc].
Defined.



End DialogAndCache.
